(** * Sovereign Oxygen System: alert lifecycle and tank thresholds

    A shallow embedding of the entity methods of
    [src/database/entities/Alert.ts] and [src/database/entities/OxygenTank.ts]
    and of the tank service of [src/services/authService.ts] that applies
    sensor readings and opens alerts, followed by the properties of the alert
    lifecycle, of the tank queries and of the service.

    Modelling choices.
    - A JavaScript [Date] is the integer [getTime()] returns (milliseconds
      since the epoch).  [new Date()] reads a clock; two readings inside one
      method may differ, so the clock is a sequence of readings.
    - The [int] columns (counters, levels, delays) are integers ([Z]).
    - The [decimal] columns of the tank are JavaScript numbers, that is IEEE 754
      binary64 values: they are primitive floats, and [/], [*] and [<=] are the
      IEEE operations, so that a division by zero yields an infinity or a NaN
      exactly as it does at run time.
    - A nullable column is an [option]; an optional argument is an [option].
    - A method is a computation over the receiver ([this]) and the clock that
      either completes normally or throws.  Columns that no modelled method
      reads or writes (titles, identifiers, free-form JSON) are left out. *)

From Stdlib Require Import ZArith List String Ascii Bool Lia Floats.
Import ListNotations.

Local Open Scope string_scope.
Local Open Scope Z_scope.

(** ** The JavaScript runtime the methods rely on *)

Module Js.

(** [Date] values, as [getTime()] shows them. *)
Definition Date := Z.

(** How a call completes: with a value, or with a thrown error (its name). *)
Inductive Completion (A : Type) : Type :=
| Normal (value : A)
| Throw (error : string).
Arguments Normal {A} value.
Arguments Throw {A} error.

(** The receiver of a method call together with the system clock:
    [clock k] is what the [k]-th [new Date()] returns. *)
Record World (O : Type) : Type := mkWorld {
  this : O;
  clock : nat -> Date;
  reads : nat
}.
Arguments mkWorld {O} this clock reads.
Arguments this {O} w.
Arguments clock {O} w.
Arguments reads {O} w.

Definition M (O A : Type) : Type := World O -> Completion A * World O.

Definition ret {O A} (x : A) : M O A := fun w => (Normal x, w).

Definition bind {O A B} (c : M O A) (k : A -> M O B) : M O B :=
  fun w =>
    match c w with
    | (Normal x, w') => k x w'
    | (Throw e, w') => (Throw e, w')
    end.

Definition throw {O A} (e : string) : M O A := fun w => (Throw e, w).

(** [this.f] *)
Definition read {O A} (f : O -> A) : M O A := fun w => (Normal (f (this w)), w).

(** [this.f = v], [this.f++] and the like: [upd] rewrites the receiver. *)
Definition assign {O} (upd : O -> O) : M O unit :=
  fun w => (Normal tt, mkWorld (upd (this w)) (clock w) (reads w)).

(** [new Date()] *)
Definition new_Date {O} : M O Date :=
  fun w => (Normal (clock w (reads w)), mkWorld (this w) (clock w) (S (reads w))).

(** [if (c) { body }] *)
Definition when {O} (c : bool) (body : M O unit) : M O unit :=
  if c then body else ret tt.

(** Truthiness of a possibly missing string: [undefined], [null] and the
    empty string are falsy. *)
Definition truthy (s : option string) : bool :=
  match s with
  | Some s => negb (s =? "")%string
  | None => false
  end.

(** [s || ''] *)
Definition or_empty (s : option string) : string :=
  match s with
  | Some s => s
  | None => ""
  end.

(** [s || null] *)
Definition or_null (s : option string) : option string :=
  if truthy s then s else None.

(** [!arr] for a nullable array: an array, even an empty one, is truthy. *)
Definition is_null {A} (arr : option (list A)) : bool :=
  match arr with
  | Some _ => false
  | None => true
  end.

(** The entries of a nullable array, for counting them. *)
Definition entries {A} (arr : option (list A)) : list A :=
  match arr with
  | Some l => l
  | None => []
  end.

(** [this.f.push(e)]: a [TypeError] when [this.f] is null or undefined. *)
Definition push {O A} (f : O -> option (list A)) (set_f : option (list A) -> O -> O)
    (e : A) : M O unit :=
  fun w =>
    match f (this w) with
    | Some l => assign (set_f (Some (l ++ [e])%list)) w
    | None => (Throw "TypeError", w)
    end.

(** The line feed of a template literal. *)
Definition LF : string := String (ascii_of_nat 10) EmptyString.

End Js.

Import Js.

Declare Scope js_scope.
Delimit Scope js_scope with js.
Notation "x <- c ;; k" := (bind c (fun x => k))
(at level 61, c at next level, right associativity) : js_scope.
Notation "c ;; k" := (bind c (fun _ => k))
(at level 61, right associativity) : js_scope.
Local Open Scope js_scope.

(** ** [Alert.ts] *)

Module Alert.

Inductive AlertSeverity : Type := LOW | MEDIUM | HIGH | CRITICAL | EMERGENCY.

Inductive AlertStatus : Type := ACTIVE | ACKNOWLEDGED | RESOLVED | ESCALATED | DISMISSED.

(** [===] on statuses. *)
Definition AlertStatus_eqb (s s' : AlertStatus) : bool :=
  match s, s' with
  | ACTIVE, ACTIVE | ACKNOWLEDGED, ACKNOWLEDGED | RESOLVED, RESOLVED
  | ESCALATED, ESCALATED | DISMISSED, DISMISSED => true
  | _, _ => false
  end.

Inductive NotificationMethod : Type := EMAIL | SMS | PUSH | IN_APP | VOICE | PAGER.

(** ['sent' | 'delivered' | 'failed'] *)
Inductive DeliveryStatus : Type := sent | delivered | failed.

Record NotificationEntry : Type := {
  method : NotificationMethod;
  recipient : string;
  sentAt : Date;
  delivery : DeliveryStatus;
  error : option string
}.

(** The entries of the three JSON history columns.  Where an entry's key is
    also a column of the alert ([status], [escalatedTo], [escalatedAt]) the
    entry's field is renamed ([delivery], primed names). *)

Record EscalationEntry : Type := {
  level : Z;
  escalatedTo' : string;
  escalatedAt' : Date;
  reason : string
}.

Record ActionEntry : Type := {
  action : string;
  performedBy : string;
  performedAt : Date;
  details : string
}.

Record Alert : Type := {
  severity : AlertSeverity;
  status : AlertStatus;
  acknowledgedBy : option string;
  acknowledgedAt : option Date;
  resolvedBy : option string;
  resolvedAt : option Date;
  resolutionNotes : option string;
  escalatedTo : option string;
  escalatedAt : option Date;
  escalationReason : option string;
  escalationLevel : Z;
  acknowledgmentCount : Z;
  notificationCount : Z;
  notificationHistory : option (list NotificationEntry);
  escalationHistory : option (list EscalationEntry);
  actionHistory : option (list ActionEntry);
  requiresAcknowledgment : bool;
  requiresResolution : bool;
  autoEscalate : bool;
  escalationDelay : Z;
  nextEscalationAt : option Date;
  nextOccurrence : option Date;
  occurrenceCount : Z;
  notes : option string;
  createdAt : Date;
  updatedAt : Date
}.

(** Field updates, one per column a method assigns. *)

Definition set_status (v : AlertStatus) (a : Alert) : Alert :=
  {| severity := severity a; status := v; acknowledgedBy := acknowledgedBy a;
     acknowledgedAt := acknowledgedAt a; resolvedBy := resolvedBy a;
     resolvedAt := resolvedAt a; resolutionNotes := resolutionNotes a;
     escalatedTo := escalatedTo a; escalatedAt := escalatedAt a;
     escalationReason := escalationReason a; escalationLevel := escalationLevel a;
     acknowledgmentCount := acknowledgmentCount a;
     notificationCount := notificationCount a;
     notificationHistory := notificationHistory a;
     escalationHistory := escalationHistory a; actionHistory := actionHistory a;
     requiresAcknowledgment := requiresAcknowledgment a;
     requiresResolution := requiresResolution a; autoEscalate := autoEscalate a;
     escalationDelay := escalationDelay a; nextEscalationAt := nextEscalationAt a;
     nextOccurrence := nextOccurrence a; occurrenceCount := occurrenceCount a;
     notes := notes a; createdAt := createdAt a; updatedAt := updatedAt a |}.

Definition set_acknowledgedBy (v : option string) (a : Alert) : Alert :=
  {| severity := severity a; status := status a; acknowledgedBy := v;
     acknowledgedAt := acknowledgedAt a; resolvedBy := resolvedBy a;
     resolvedAt := resolvedAt a; resolutionNotes := resolutionNotes a;
     escalatedTo := escalatedTo a; escalatedAt := escalatedAt a;
     escalationReason := escalationReason a; escalationLevel := escalationLevel a;
     acknowledgmentCount := acknowledgmentCount a;
     notificationCount := notificationCount a;
     notificationHistory := notificationHistory a;
     escalationHistory := escalationHistory a; actionHistory := actionHistory a;
     requiresAcknowledgment := requiresAcknowledgment a;
     requiresResolution := requiresResolution a; autoEscalate := autoEscalate a;
     escalationDelay := escalationDelay a; nextEscalationAt := nextEscalationAt a;
     nextOccurrence := nextOccurrence a; occurrenceCount := occurrenceCount a;
     notes := notes a; createdAt := createdAt a; updatedAt := updatedAt a |}.

Definition set_acknowledgedAt (v : option Date) (a : Alert) : Alert :=
  {| severity := severity a; status := status a; acknowledgedBy := acknowledgedBy a;
     acknowledgedAt := v; resolvedBy := resolvedBy a; resolvedAt := resolvedAt a;
     resolutionNotes := resolutionNotes a; escalatedTo := escalatedTo a;
     escalatedAt := escalatedAt a; escalationReason := escalationReason a;
     escalationLevel := escalationLevel a; acknowledgmentCount := acknowledgmentCount a;
     notificationCount := notificationCount a;
     notificationHistory := notificationHistory a;
     escalationHistory := escalationHistory a; actionHistory := actionHistory a;
     requiresAcknowledgment := requiresAcknowledgment a;
     requiresResolution := requiresResolution a; autoEscalate := autoEscalate a;
     escalationDelay := escalationDelay a; nextEscalationAt := nextEscalationAt a;
     nextOccurrence := nextOccurrence a; occurrenceCount := occurrenceCount a;
     notes := notes a; createdAt := createdAt a; updatedAt := updatedAt a |}.

Definition set_acknowledgmentCount (v : Z) (a : Alert) : Alert :=
  {| severity := severity a; status := status a; acknowledgedBy := acknowledgedBy a;
     acknowledgedAt := acknowledgedAt a; resolvedBy := resolvedBy a;
     resolvedAt := resolvedAt a; resolutionNotes := resolutionNotes a;
     escalatedTo := escalatedTo a; escalatedAt := escalatedAt a;
     escalationReason := escalationReason a; escalationLevel := escalationLevel a;
     acknowledgmentCount := v; notificationCount := notificationCount a;
     notificationHistory := notificationHistory a;
     escalationHistory := escalationHistory a; actionHistory := actionHistory a;
     requiresAcknowledgment := requiresAcknowledgment a;
     requiresResolution := requiresResolution a; autoEscalate := autoEscalate a;
     escalationDelay := escalationDelay a; nextEscalationAt := nextEscalationAt a;
     nextOccurrence := nextOccurrence a; occurrenceCount := occurrenceCount a;
     notes := notes a; createdAt := createdAt a; updatedAt := updatedAt a |}.

Definition set_notes (v : option string) (a : Alert) : Alert :=
  {| severity := severity a; status := status a; acknowledgedBy := acknowledgedBy a;
     acknowledgedAt := acknowledgedAt a; resolvedBy := resolvedBy a;
     resolvedAt := resolvedAt a; resolutionNotes := resolutionNotes a;
     escalatedTo := escalatedTo a; escalatedAt := escalatedAt a;
     escalationReason := escalationReason a; escalationLevel := escalationLevel a;
     acknowledgmentCount := acknowledgmentCount a;
     notificationCount := notificationCount a;
     notificationHistory := notificationHistory a;
     escalationHistory := escalationHistory a; actionHistory := actionHistory a;
     requiresAcknowledgment := requiresAcknowledgment a;
     requiresResolution := requiresResolution a; autoEscalate := autoEscalate a;
     escalationDelay := escalationDelay a; nextEscalationAt := nextEscalationAt a;
     nextOccurrence := nextOccurrence a; occurrenceCount := occurrenceCount a;
     notes := v; createdAt := createdAt a; updatedAt := updatedAt a |}.

Definition set_actionHistory (v : option (list ActionEntry)) (a : Alert) : Alert :=
  {| severity := severity a; status := status a; acknowledgedBy := acknowledgedBy a;
     acknowledgedAt := acknowledgedAt a; resolvedBy := resolvedBy a;
     resolvedAt := resolvedAt a; resolutionNotes := resolutionNotes a;
     escalatedTo := escalatedTo a; escalatedAt := escalatedAt a;
     escalationReason := escalationReason a; escalationLevel := escalationLevel a;
     acknowledgmentCount := acknowledgmentCount a;
     notificationCount := notificationCount a;
     notificationHistory := notificationHistory a;
     escalationHistory := escalationHistory a; actionHistory := v;
     requiresAcknowledgment := requiresAcknowledgment a;
     requiresResolution := requiresResolution a; autoEscalate := autoEscalate a;
     escalationDelay := escalationDelay a; nextEscalationAt := nextEscalationAt a;
     nextOccurrence := nextOccurrence a; occurrenceCount := occurrenceCount a;
     notes := notes a; createdAt := createdAt a; updatedAt := updatedAt a |}.

Definition set_resolvedBy (v : option string) (a : Alert) : Alert :=
  {| severity := severity a; status := status a; acknowledgedBy := acknowledgedBy a;
     acknowledgedAt := acknowledgedAt a; resolvedBy := v; resolvedAt := resolvedAt a;
     resolutionNotes := resolutionNotes a; escalatedTo := escalatedTo a;
     escalatedAt := escalatedAt a; escalationReason := escalationReason a;
     escalationLevel := escalationLevel a; acknowledgmentCount := acknowledgmentCount a;
     notificationCount := notificationCount a;
     notificationHistory := notificationHistory a;
     escalationHistory := escalationHistory a; actionHistory := actionHistory a;
     requiresAcknowledgment := requiresAcknowledgment a;
     requiresResolution := requiresResolution a; autoEscalate := autoEscalate a;
     escalationDelay := escalationDelay a; nextEscalationAt := nextEscalationAt a;
     nextOccurrence := nextOccurrence a; occurrenceCount := occurrenceCount a;
     notes := notes a; createdAt := createdAt a; updatedAt := updatedAt a |}.

Definition set_resolvedAt (v : option Date) (a : Alert) : Alert :=
  {| severity := severity a; status := status a; acknowledgedBy := acknowledgedBy a;
     acknowledgedAt := acknowledgedAt a; resolvedBy := resolvedBy a; resolvedAt := v;
     resolutionNotes := resolutionNotes a; escalatedTo := escalatedTo a;
     escalatedAt := escalatedAt a; escalationReason := escalationReason a;
     escalationLevel := escalationLevel a; acknowledgmentCount := acknowledgmentCount a;
     notificationCount := notificationCount a;
     notificationHistory := notificationHistory a;
     escalationHistory := escalationHistory a; actionHistory := actionHistory a;
     requiresAcknowledgment := requiresAcknowledgment a;
     requiresResolution := requiresResolution a; autoEscalate := autoEscalate a;
     escalationDelay := escalationDelay a; nextEscalationAt := nextEscalationAt a;
     nextOccurrence := nextOccurrence a; occurrenceCount := occurrenceCount a;
     notes := notes a; createdAt := createdAt a; updatedAt := updatedAt a |}.

Definition set_resolutionNotes (v : option string) (a : Alert) : Alert :=
  {| severity := severity a; status := status a; acknowledgedBy := acknowledgedBy a;
     acknowledgedAt := acknowledgedAt a; resolvedBy := resolvedBy a;
     resolvedAt := resolvedAt a; resolutionNotes := v; escalatedTo := escalatedTo a;
     escalatedAt := escalatedAt a; escalationReason := escalationReason a;
     escalationLevel := escalationLevel a; acknowledgmentCount := acknowledgmentCount a;
     notificationCount := notificationCount a;
     notificationHistory := notificationHistory a;
     escalationHistory := escalationHistory a; actionHistory := actionHistory a;
     requiresAcknowledgment := requiresAcknowledgment a;
     requiresResolution := requiresResolution a; autoEscalate := autoEscalate a;
     escalationDelay := escalationDelay a; nextEscalationAt := nextEscalationAt a;
     nextOccurrence := nextOccurrence a; occurrenceCount := occurrenceCount a;
     notes := notes a; createdAt := createdAt a; updatedAt := updatedAt a |}.

Definition set_escalatedTo (v : option string) (a : Alert) : Alert :=
  {| severity := severity a; status := status a; acknowledgedBy := acknowledgedBy a;
     acknowledgedAt := acknowledgedAt a; resolvedBy := resolvedBy a;
     resolvedAt := resolvedAt a; resolutionNotes := resolutionNotes a; escalatedTo := v;
     escalatedAt := escalatedAt a; escalationReason := escalationReason a;
     escalationLevel := escalationLevel a; acknowledgmentCount := acknowledgmentCount a;
     notificationCount := notificationCount a;
     notificationHistory := notificationHistory a;
     escalationHistory := escalationHistory a; actionHistory := actionHistory a;
     requiresAcknowledgment := requiresAcknowledgment a;
     requiresResolution := requiresResolution a; autoEscalate := autoEscalate a;
     escalationDelay := escalationDelay a; nextEscalationAt := nextEscalationAt a;
     nextOccurrence := nextOccurrence a; occurrenceCount := occurrenceCount a;
     notes := notes a; createdAt := createdAt a; updatedAt := updatedAt a |}.

Definition set_escalatedAt (v : option Date) (a : Alert) : Alert :=
  {| severity := severity a; status := status a; acknowledgedBy := acknowledgedBy a;
     acknowledgedAt := acknowledgedAt a; resolvedBy := resolvedBy a;
     resolvedAt := resolvedAt a; resolutionNotes := resolutionNotes a;
     escalatedTo := escalatedTo a; escalatedAt := v;
     escalationReason := escalationReason a; escalationLevel := escalationLevel a;
     acknowledgmentCount := acknowledgmentCount a;
     notificationCount := notificationCount a;
     notificationHistory := notificationHistory a;
     escalationHistory := escalationHistory a; actionHistory := actionHistory a;
     requiresAcknowledgment := requiresAcknowledgment a;
     requiresResolution := requiresResolution a; autoEscalate := autoEscalate a;
     escalationDelay := escalationDelay a; nextEscalationAt := nextEscalationAt a;
     nextOccurrence := nextOccurrence a; occurrenceCount := occurrenceCount a;
     notes := notes a; createdAt := createdAt a; updatedAt := updatedAt a |}.

Definition set_escalationReason (v : option string) (a : Alert) : Alert :=
  {| severity := severity a; status := status a; acknowledgedBy := acknowledgedBy a;
     acknowledgedAt := acknowledgedAt a; resolvedBy := resolvedBy a;
     resolvedAt := resolvedAt a; resolutionNotes := resolutionNotes a;
     escalatedTo := escalatedTo a; escalatedAt := escalatedAt a; escalationReason := v;
     escalationLevel := escalationLevel a; acknowledgmentCount := acknowledgmentCount a;
     notificationCount := notificationCount a;
     notificationHistory := notificationHistory a;
     escalationHistory := escalationHistory a; actionHistory := actionHistory a;
     requiresAcknowledgment := requiresAcknowledgment a;
     requiresResolution := requiresResolution a; autoEscalate := autoEscalate a;
     escalationDelay := escalationDelay a; nextEscalationAt := nextEscalationAt a;
     nextOccurrence := nextOccurrence a; occurrenceCount := occurrenceCount a;
     notes := notes a; createdAt := createdAt a; updatedAt := updatedAt a |}.

Definition set_escalationLevel (v : Z) (a : Alert) : Alert :=
  {| severity := severity a; status := status a; acknowledgedBy := acknowledgedBy a;
     acknowledgedAt := acknowledgedAt a; resolvedBy := resolvedBy a;
     resolvedAt := resolvedAt a; resolutionNotes := resolutionNotes a;
     escalatedTo := escalatedTo a; escalatedAt := escalatedAt a;
     escalationReason := escalationReason a; escalationLevel := v;
     acknowledgmentCount := acknowledgmentCount a;
     notificationCount := notificationCount a;
     notificationHistory := notificationHistory a;
     escalationHistory := escalationHistory a; actionHistory := actionHistory a;
     requiresAcknowledgment := requiresAcknowledgment a;
     requiresResolution := requiresResolution a; autoEscalate := autoEscalate a;
     escalationDelay := escalationDelay a; nextEscalationAt := nextEscalationAt a;
     nextOccurrence := nextOccurrence a; occurrenceCount := occurrenceCount a;
     notes := notes a; createdAt := createdAt a; updatedAt := updatedAt a |}.

Definition set_escalationHistory (v : option (list EscalationEntry)) (a : Alert) : Alert :=
  {| severity := severity a; status := status a; acknowledgedBy := acknowledgedBy a;
     acknowledgedAt := acknowledgedAt a; resolvedBy := resolvedBy a;
     resolvedAt := resolvedAt a; resolutionNotes := resolutionNotes a;
     escalatedTo := escalatedTo a; escalatedAt := escalatedAt a;
     escalationReason := escalationReason a; escalationLevel := escalationLevel a;
     acknowledgmentCount := acknowledgmentCount a;
     notificationCount := notificationCount a;
     notificationHistory := notificationHistory a; escalationHistory := v;
     actionHistory := actionHistory a;
     requiresAcknowledgment := requiresAcknowledgment a;
     requiresResolution := requiresResolution a; autoEscalate := autoEscalate a;
     escalationDelay := escalationDelay a; nextEscalationAt := nextEscalationAt a;
     nextOccurrence := nextOccurrence a; occurrenceCount := occurrenceCount a;
     notes := notes a; createdAt := createdAt a; updatedAt := updatedAt a |}.

Definition set_notificationHistory (v : option (list NotificationEntry)) (a : Alert) : Alert :=
  {| severity := severity a; status := status a; acknowledgedBy := acknowledgedBy a;
     acknowledgedAt := acknowledgedAt a; resolvedBy := resolvedBy a;
     resolvedAt := resolvedAt a; resolutionNotes := resolutionNotes a;
     escalatedTo := escalatedTo a; escalatedAt := escalatedAt a;
     escalationReason := escalationReason a; escalationLevel := escalationLevel a;
     acknowledgmentCount := acknowledgmentCount a;
     notificationCount := notificationCount a; notificationHistory := v;
     escalationHistory := escalationHistory a; actionHistory := actionHistory a;
     requiresAcknowledgment := requiresAcknowledgment a;
     requiresResolution := requiresResolution a; autoEscalate := autoEscalate a;
     escalationDelay := escalationDelay a; nextEscalationAt := nextEscalationAt a;
     nextOccurrence := nextOccurrence a; occurrenceCount := occurrenceCount a;
     notes := notes a; createdAt := createdAt a; updatedAt := updatedAt a |}.

Definition set_notificationCount (v : Z) (a : Alert) : Alert :=
  {| severity := severity a; status := status a; acknowledgedBy := acknowledgedBy a;
     acknowledgedAt := acknowledgedAt a; resolvedBy := resolvedBy a;
     resolvedAt := resolvedAt a; resolutionNotes := resolutionNotes a;
     escalatedTo := escalatedTo a; escalatedAt := escalatedAt a;
     escalationReason := escalationReason a; escalationLevel := escalationLevel a;
     acknowledgmentCount := acknowledgmentCount a; notificationCount := v;
     notificationHistory := notificationHistory a;
     escalationHistory := escalationHistory a; actionHistory := actionHistory a;
     requiresAcknowledgment := requiresAcknowledgment a;
     requiresResolution := requiresResolution a; autoEscalate := autoEscalate a;
     escalationDelay := escalationDelay a; nextEscalationAt := nextEscalationAt a;
     nextOccurrence := nextOccurrence a; occurrenceCount := occurrenceCount a;
     notes := notes a; createdAt := createdAt a; updatedAt := updatedAt a |}.


(** *** Methods *)

(** [private addActionHistory(action, performedBy, details?)] *)
Definition addActionHistory (action performedBy : string) (details : option string)
  : M Alert unit :=
  h <- read actionHistory ;;
  when (is_null h) (assign (set_actionHistory (Some []))) ;;
  performedAt <- new_Date ;;
  push actionHistory set_actionHistory
    {| action := action; performedBy := performedBy; performedAt := performedAt;
       details := or_empty details |}.

(** [acknowledge(acknowledgedBy, notes?)] *)
Definition acknowledge (acknowledgedBy : string) (notes : option string) : M Alert unit :=
  assign (set_status ACKNOWLEDGED) ;;
  assign (set_acknowledgedBy (Some acknowledgedBy)) ;;
  now <- new_Date ;;
  assign (set_acknowledgedAt (Some now)) ;;
  assign (fun a => set_acknowledgmentCount (acknowledgmentCount a + 1) a) ;;
  when (truthy notes)
    (assign (fun a =>
       set_notes
         (if truthy (Alert.notes a)
          then Some (or_empty (Alert.notes a) ++ LF ++ or_empty notes)%string
          else notes) a)) ;;
  addActionHistory "acknowledged" acknowledgedBy (Some (or_empty notes)).

(** [resolve(resolvedBy, resolutionNotes?)] *)
Definition resolve (resolvedBy : string) (resolutionNotes : option string) : M Alert unit :=
  assign (set_status RESOLVED) ;;
  assign (set_resolvedBy (Some resolvedBy)) ;;
  now <- new_Date ;;
  assign (set_resolvedAt (Some now)) ;;
  assign (set_resolutionNotes (or_null resolutionNotes)) ;;
  addActionHistory "resolved" resolvedBy (Some (or_empty resolutionNotes)).

(** [escalate(escalatedTo, reason)] *)
Definition escalate (escalatedTo reason : string) : M Alert unit :=
  assign (set_status ESCALATED) ;;
  assign (set_escalatedTo (Some escalatedTo)) ;;
  now <- new_Date ;;
  assign (set_escalatedAt (Some now)) ;;
  assign (set_escalationReason (Some reason)) ;;
  assign (fun a => set_escalationLevel (escalationLevel a + 1) a) ;;
  h <- read escalationHistory ;;
  when (is_null h) (assign (set_escalationHistory (Some []))) ;;
  lvl <- read escalationLevel ;;
  escalatedAt <- new_Date ;;
  push escalationHistory set_escalationHistory
    {| level := lvl; escalatedTo' := escalatedTo; escalatedAt' := escalatedAt;
       reason := reason |} ;;
  addActionHistory "escalated" escalatedTo (Some reason).

(** [dismiss(dismissedBy, reason?)] *)
Definition dismiss (dismissedBy : string) (reason : option string) : M Alert unit :=
  assign (set_status DISMISSED) ;;
  addActionHistory "dismissed" dismissedBy (Some (or_empty reason)).

(** [addNotification(method, recipient, status, error?)] *)
Definition addNotification (method : NotificationMethod) (recipient : string)
    (status : DeliveryStatus) (error : option string) : M Alert unit :=
  h <- read notificationHistory ;;
  when (is_null h) (assign (set_notificationHistory (Some []))) ;;
  sentAt <- new_Date ;;
  push notificationHistory set_notificationHistory
    {| method := method; recipient := recipient; sentAt := sentAt;
       delivery := status; error := error |} ;;
  assign (fun a => set_notificationCount (notificationCount a + 1) a).

(** [isUrgent()] *)
Definition isUrgent (a : Alert) : bool :=
  match severity a with
  | CRITICAL | EMERGENCY => true
  | _ => false
  end.

(** [getDuration()]: whole minutes since creation,
    [Math.floor((now.getTime() - created.getTime()) / (1000 * 60))]. *)
Definition getDuration : M Alert Z :=
  now <- new_Date ;;
  created <- read createdAt ;;
  ret ((now - created) / (1000 * 60)).

(** [shouldEscalate()] *)
Definition shouldEscalate : M Alert bool :=
  auto <- read autoEscalate ;;
  st <- read status ;;
  if negb auto || negb (AlertStatus_eqb st ACTIVE)
  then ret false
  else
    duration <- getDuration ;;
    delay <- read escalationDelay ;;
    ret (duration >=? delay).

(** *** Calls on one alert instance

    The operator-facing layer and the scheduler call the methods above in any
    order; a call is a method name with its arguments. *)

Inductive Transition : Type :=
| Acknowledge (acknowledgedBy : string) (notes : option string)
| Resolve (resolvedBy : string) (resolutionNotes : option string)
| Escalate (escalatedTo reason : string)
| Dismiss (dismissedBy : string) (reason : option string).

Inductive Call : Type :=
| Transit (t : Transition)
| AddNotification (method : NotificationMethod) (recipient : string)
    (status : DeliveryStatus) (error : option string).

Definition transit (t : Transition) : M Alert unit :=
  match t with
  | Acknowledge who notes => acknowledge who notes
  | Resolve who notes => resolve who notes
  | Escalate target reason => escalate target reason
  | Dismiss who reason => dismiss who reason
  end.

Definition invoke (c : Call) : M Alert unit :=
  match c with
  | Transit t => transit t
  | AddNotification m r s e => addNotification m r s e
  end.

(** A sequence of calls; a call that throws ends the sequence. *)
Fixpoint invoke_all (cs : list Call) : M Alert unit :=
  match cs with
  | [] => ret tt
  | c :: cs => invoke c ;; invoke_all cs
  end.

(** The number of escalations in a sequence of calls. *)
Definition is_escalation (c : Call) : bool :=
  match c with
  | Transit (Escalate _ _) => true
  | _ => false
  end.

Definition escalations (cs : list Call) : Z :=
  Z.of_nat (List.length (filter is_escalation cs)).

(** The status a transition assigns. *)
Definition target (t : Transition) : AlertStatus :=
  match t with
  | Acknowledge _ _ => ACKNOWLEDGED
  | Resolve _ _ => RESOLVED
  | Escalate _ _ => ESCALATED
  | Dismiss _ _ => DISMISSED
  end.

(** The [timestamp] columns of an alert. *)
Inductive Timestamp : Type :=
| AcknowledgedAt | ResolvedAt | EscalatedAt | NextEscalationAt | NextOccurrence
| CreatedAt | UpdatedAt.

Definition timestamp (f : Timestamp) (a : Alert) : option Date :=
  match f with
  | AcknowledgedAt => acknowledgedAt a
  | ResolvedAt => resolvedAt a
  | EscalatedAt => escalatedAt a
  | NextEscalationAt => nextEscalationAt a
  | NextOccurrence => nextOccurrence a
  | CreatedAt => Some (createdAt a)
  | UpdatedAt => Some (updatedAt a)
  end.

(** The timestamp column a transition's method assigns, if any. *)
Definition stamp (t : Transition) : option Timestamp :=
  match t with
  | Acknowledge _ _ => Some AcknowledgedAt
  | Resolve _ _ => Some ResolvedAt
  | Escalate _ _ => Some EscalatedAt
  | Dismiss _ _ => None
  end.

(** The alert once [addActionHistory] has appended its entry, stamped [at_]. *)
Definition logged (act who details : string) (at_ : Date) (a : Alert) : Alert :=
  set_actionHistory
    (Some (entries (actionHistory a) ++
           [{| action := act; performedBy := who; performedAt := at_;
               details := details |}])%list) a.

(** The counters of an alert. *)
Definition counters (a : Alert) : Z * Z * Z :=
  (escalationLevel a, acknowledgmentCount a, notificationCount a).

Definition Date_eqb (d d' : option Date) : bool :=
  match d, d' with
  | Some t, Some t' => t =? t'
  | None, None => true
  | _, _ => false
  end.

(** The timestamp columns whose value differs between two states of an alert. *)
Definition stamped (before after : Alert) : list Timestamp :=
  filter (fun f => negb (Date_eqb (timestamp f before) (timestamp f after)))
    [AcknowledgedAt; ResolvedAt; EscalatedAt; NextEscalationAt; NextOccurrence;
     CreatedAt; UpdatedAt].

(** An alert as the column defaults make it, created at [created]. *)
Definition fresh (created : Date) : Alert :=
  {| severity := MEDIUM; status := ACTIVE;
     acknowledgedBy := None; acknowledgedAt := None;
     resolvedBy := None; resolvedAt := None; resolutionNotes := None;
     escalatedTo := None; escalatedAt := None; escalationReason := None;
     escalationLevel := 0; acknowledgmentCount := 0; notificationCount := 0;
     notificationHistory := None; escalationHistory := None; actionHistory := None;
     requiresAcknowledgment := false; requiresResolution := false;
     autoEscalate := false; escalationDelay := 300;
     nextEscalationAt := None; nextOccurrence := None; occurrenceCount := 0;
     notes := None; createdAt := created; updatedAt := created |}.

(** *** The remaining queries *)

(** [needsImmediateAttention()] *)
Definition needsImmediateAttention (a : Alert) : bool :=
  AlertStatus_eqb (status a) ACTIVE && (isUrgent a || requiresAcknowledgment a).

(** [getTimeSinceAcknowledgment()]: [null] when the alert was never
    acknowledged (the clock is then not read), whole minutes otherwise. *)
Definition getTimeSinceAcknowledgment : M Alert (option Z) :=
  at_ <- read acknowledgedAt ;;
  match at_ with
  | None => ret None
  | Some acknowledged =>
      now <- new_Date ;;
      ret (Some ((now - acknowledged) / (1000 * 60)))
  end.

(** [getTimeSinceResolution()] *)
Definition getTimeSinceResolution : M Alert (option Z) :=
  at_ <- read resolvedAt ;;
  match at_ with
  | None => ret None
  | Some resolved =>
      now <- new_Date ;;
      ret (Some ((now - resolved) / (1000 * 60)))
  end.

(** *** Counting the calls of a sequence *)

Definition is_transition (c : Call) : bool :=
  match c with
  | Transit _ => true
  | AddNotification _ _ _ _ => false
  end.

Definition is_acknowledgment (c : Call) : bool :=
  match c with
  | Transit (Acknowledge _ _) => true
  | _ => false
  end.

Definition count (p : Call -> bool) (cs : list Call) : nat :=
  List.length (filter p cs).

(** The last transition of a sequence of calls, if it has one. *)
Fixpoint last_transition (cs : list Call) : option Transition :=
  match cs with
  | [] => None
  | c :: cs =>
      match last_transition cs, c with
      | Some t, _ => Some t
      | None, Transit t => Some t
      | None, AddNotification _ _ _ _ => None
      end
  end.

End Alert.

(** ** [OxygenTank.ts] *)

Module OxygenTank.

Local Open Scope float_scope.

(** The [alertSettings] JSON column. *)
Record AlertSettings : Type := {
  lowPressureThreshold : float;
  highPressureThreshold : float;
  lowLevelThreshold : float;
  leakDetectionEnabled : bool;
  temperatureMonitoringEnabled : bool
}.

Record OxygenTank : Type := {
  capacity : float;
  currentLevel : float;
  fillPercentage : float;
  currentPressure : float;
  maxPressure : float;
  minPressure : float;
  criticalPressure : float;
  refillThreshold : float;
  isLeaking : bool;
  isDamaged : bool;
  nextMaintenanceDate : option Date;
  expirationDate : option Date;
  dailyUsage : float;
  lastReadingAt : option Date;
  alertSettings : option AlertSettings;
  temperature : option float;
  humidity : option float
}.

Definition set_currentLevel (v : float) (t : OxygenTank) : OxygenTank :=
  {| capacity := capacity t; currentLevel := v; fillPercentage := fillPercentage t;
     currentPressure := currentPressure t; maxPressure := maxPressure t;
     minPressure := minPressure t; criticalPressure := criticalPressure t;
     refillThreshold := refillThreshold t; isLeaking := isLeaking t;
     isDamaged := isDamaged t; nextMaintenanceDate := nextMaintenanceDate t;
     expirationDate := expirationDate t; dailyUsage := dailyUsage t;
     lastReadingAt := lastReadingAt t; alertSettings := alertSettings t;
     temperature := temperature t; humidity := humidity t |}.

Definition set_currentPressure (v : float) (t : OxygenTank) : OxygenTank :=
  {| capacity := capacity t; currentLevel := currentLevel t;
     fillPercentage := fillPercentage t; currentPressure := v;
     maxPressure := maxPressure t; minPressure := minPressure t;
     criticalPressure := criticalPressure t; refillThreshold := refillThreshold t;
     isLeaking := isLeaking t; isDamaged := isDamaged t;
     nextMaintenanceDate := nextMaintenanceDate t; expirationDate := expirationDate t;
     dailyUsage := dailyUsage t; lastReadingAt := lastReadingAt t;
     alertSettings := alertSettings t; temperature := temperature t;
     humidity := humidity t |}.

Definition set_fillPercentage (v : float) (t : OxygenTank) : OxygenTank :=
  {| capacity := capacity t; currentLevel := currentLevel t; fillPercentage := v;
     currentPressure := currentPressure t; maxPressure := maxPressure t;
     minPressure := minPressure t; criticalPressure := criticalPressure t;
     refillThreshold := refillThreshold t; isLeaking := isLeaking t;
     isDamaged := isDamaged t; nextMaintenanceDate := nextMaintenanceDate t;
     expirationDate := expirationDate t; dailyUsage := dailyUsage t;
     lastReadingAt := lastReadingAt t; alertSettings := alertSettings t;
     temperature := temperature t; humidity := humidity t |}.

Definition set_lastReadingAt (v : option Date) (t : OxygenTank) : OxygenTank :=
  {| capacity := capacity t; currentLevel := currentLevel t;
     fillPercentage := fillPercentage t; currentPressure := currentPressure t;
     maxPressure := maxPressure t; minPressure := minPressure t;
     criticalPressure := criticalPressure t; refillThreshold := refillThreshold t;
     isLeaking := isLeaking t; isDamaged := isDamaged t;
     nextMaintenanceDate := nextMaintenanceDate t; expirationDate := expirationDate t;
     dailyUsage := dailyUsage t; lastReadingAt := v; alertSettings := alertSettings t;
     temperature := temperature t; humidity := humidity t |}.

Definition set_temperature (v : option float) (t : OxygenTank) : OxygenTank :=
  {| capacity := capacity t; currentLevel := currentLevel t;
     fillPercentage := fillPercentage t; currentPressure := currentPressure t;
     maxPressure := maxPressure t; minPressure := minPressure t;
     criticalPressure := criticalPressure t; refillThreshold := refillThreshold t;
     isLeaking := isLeaking t; isDamaged := isDamaged t;
     nextMaintenanceDate := nextMaintenanceDate t; expirationDate := expirationDate t;
     dailyUsage := dailyUsage t; lastReadingAt := lastReadingAt t;
     alertSettings := alertSettings t; temperature := v; humidity := humidity t |}.

Definition set_humidity (v : option float) (t : OxygenTank) : OxygenTank :=
  {| capacity := capacity t; currentLevel := currentLevel t;
     fillPercentage := fillPercentage t; currentPressure := currentPressure t;
     maxPressure := maxPressure t; minPressure := minPressure t;
     criticalPressure := criticalPressure t; refillThreshold := refillThreshold t;
     isLeaking := isLeaking t; isDamaged := isDamaged t;
     nextMaintenanceDate := nextMaintenanceDate t; expirationDate := expirationDate t;
     dailyUsage := dailyUsage t; lastReadingAt := lastReadingAt t;
     alertSettings := alertSettings t; temperature := temperature t; humidity := v |}.

(** *** Methods *)

(** [needsRefill()] *)
Definition needsRefill (t : OxygenTank) : bool :=
  fillPercentage t <=? refillThreshold t.

(** The range the entity declares for the [fillPercentage] column with its
    [@Min(0)] and [@Max(100)] decorators. *)
Definition fillPercentage_declared (x : float) : bool :=
  (0 <=? x) && (x <=? 100).

(** [isCritical()] *)
Definition isCritical (t : OxygenTank) : bool :=
  (currentPressure t <=? criticalPressure t) || (fillPercentage t <=? 10).

(** [getRemainingCapacity()] *)
Definition getRemainingCapacity (t : OxygenTank) : float :=
  capacity t - currentLevel t.

(** [private updateUsageStatistics()] *)
Definition updateUsageStatistics : M OxygenTank unit :=
  now <- new_Date ;;
  assign (set_lastReadingAt (Some now)).

(** [updateReadings(currentLevel, currentPressure, temperature?, humidity?)] *)
Definition updateReadings (currentLevel currentPressure : float)
    (temperature humidity : option float) : M OxygenTank unit :=
  assign (set_currentLevel currentLevel) ;;
  assign (set_currentPressure currentPressure) ;;
  assign (fun t => set_fillPercentage ((currentLevel / capacity t) * 100) t) ;;
  now <- new_Date ;;
  assign (set_lastReadingAt (Some now)) ;;
  match temperature with
  | Some _ => assign (set_temperature temperature)
  | None => ret tt
  end ;;
  match humidity with
  | Some _ => assign (set_humidity humidity)
  | None => ret tt
  end ;;
  updateUsageStatistics.

(** *** The remaining queries *)

Inductive PressureUnit : Type := PSI | BAR | KPA | ATM.

(** [needsMaintenance()] returns [this.nextMaintenanceDate && ...]: the null
    date itself when no maintenance is planned (the clock is then not read),
    the comparison with the current time otherwise. *)
Definition needsMaintenance : M OxygenTank (option bool) :=
  due <- read nextMaintenanceDate ;;
  match due with
  | None => ret None
  | Some due =>
      now <- new_Date ;;
      ret (Some (due <=? now)%Z)
  end.

(** [isExpired()] *)
Definition isExpired : M OxygenTank (option bool) :=
  expires <- read expirationDate ;;
  match expires with
  | None => ret None
  | Some expires =>
      now <- new_Date ;;
      ret (Some (expires <=? now)%Z)
  end.

(** Truthiness of what the two queries above return. *)
Definition holds (answer : option bool) : bool :=
  match answer with
  | Some b => b
  | None => false
  end.

(** [getEstimatedTimeRemaining()]: hours. *)
Definition getEstimatedTimeRemaining (t : OxygenTank) : float :=
  if dailyUsage t <=? 0 then infinity
  else (getRemainingCapacity t / dailyUsage t) * 24.

(** [if (c) issues.push(text)] *)
Definition push_if (c : bool) (text : string) (issues : list string) : list string :=
  if c then (issues ++ [text])%list else issues.

(** [getSafetyIssues()] *)
Definition getSafetyIssues : M OxygenTank (list string) :=
  let issues := [] in
  leaking <- read isLeaking ;;
  let issues := push_if leaking "Tank is leaking" issues in
  damaged <- read isDamaged ;;
  let issues := push_if damaged "Tank is damaged" issues in
  critical <- read isCritical ;;
  let issues := push_if critical "Tank is in critical condition" issues in
  maintenance <- needsMaintenance ;;
  let issues := push_if (holds maintenance) "Tank needs maintenance" issues in
  expired <- isExpired ;;
  let issues := push_if (holds expired) "Tank has expired" issues in
  ret issues.

End OxygenTank.

(** ** [OxygenTankService]: readings and the alerts they raise

    The service methods of [services/authService.ts] that take a sensor
    reading, apply it to the tank and open alerts.  The two repositories are
    TypeORM's; they are modelled as tables in memory: [findOne] returns the
    first row that agrees with every column of its [where], [save] of a new
    entity appends a row, [save] of a loaded entity replaces the rows of its
    primary key, and the database itself never fails.  An [await] is a
    sequential step.  Logging is left out, and so is the [message] of an alert,
    which is a formatting of the numbers kept in [metadata]. *)

Module OxygenTankService.

Local Open Scope float_scope.

(** [AlertType] and [AlertCategory] of [Alert.ts]. *)
Inductive AlertType : Type :=
| TANK_LOW_PRESSURE | TANK_HIGH_PRESSURE | TANK_LOW_LEVEL | TANK_CRITICAL_LEVEL
| TANK_LEAK_DETECTED | TANK_DAMAGE_DETECTED | TANK_DISCONNECTED | TANK_MAINTENANCE_DUE
| TANK_EXPIRED
| SYSTEM_ERROR | SYSTEM_OFFLINE | DATABASE_ERROR | NETWORK_ERROR | SENSOR_ERROR
| COMMUNICATION_ERROR
| SAFETY_VIOLATION | UNAUTHORIZED_ACCESS | ENVIRONMENTAL_HAZARD | FIRE_HAZARD
| CHEMICAL_SPILL
| USER_LOGIN_FAILURE | USER_ACCOUNT_LOCKED | USER_PERMISSION_DENIED
| EMERGENCY_SITUATION | EVACUATION_REQUIRED | MEDICAL_EMERGENCY | FIRE_ALARM
| SECURITY_BREACH.

Inductive AlertCategory : Type :=
| TANK_MONITORING | SYSTEM_MONITORING | SAFETY | SECURITY | MAINTENANCE | EMERGENCY
| USER_MANAGEMENT.

Definition AlertType_eq_dec (x y : AlertType) : {x = y} + {x <> y}.
Proof. decide equality. Defined.

(** The [metadata] and [sensorData] JSON columns, in the shapes the service
    writes. *)
Inductive Metadata : Type :=
| LevelData (currentLevel capacity percentage : float)
| PressureData (pressure minPressure maxPressure : float) (unit : OxygenTank.PressureUnit)
| TemperatureData (temperature minTemp maxTemp : float).

Record SensorData : Type := {
  pressure : option float;
  level : option float;
  temperature : option float;
  timestamp : Date
}.

(** A tank as the repository hands it out: the entity of [OxygenTank.ts] with
    the identity columns the service reads. *)
Module TankRow.
Record Tank : Type := {
  id : string;
  tankNumber : string;
  location : string;
  pressureUnit : OxygenTank.PressureUnit;
  entity : OxygenTank.OxygenTank
}.
End TankRow.

(** A row of the alerts table: the columns [alertRepository.create] is given. *)
Module AlertRow.
Record Alert : Type := {
  title : string;
  type : AlertType;
  category : AlertCategory;
  severity : Alert.AlertSeverity;
  status : Alert.AlertStatus;
  tankId : string;
  source : string;
  location : string;
  metadata : Metadata;
  sensorData : SensorData
}.
End AlertRow.

(** [interface TankReading] *)
Module TankReading.
Record TankReading : Type := {
  tankNumber : string;
  currentLevel : float;
  currentPressure : float;
  temperature : option float;
  humidity : option float;
  timestamp : Date
}.
End TankReading.

Record Repositories : Type := {
  tankRepository : list TankRow.Tank;
  alertRepository : list AlertRow.Alert
}.

(** [new Error(message)], as it prints. *)
Definition Error (message : string) : string := ("Error: " ++ message)%string.

(** [try { body } catch (error) { handler }] *)
Definition try_catch {O A} (body : M O A) (handler : string -> M O A) : M O A :=
  fun w =>
    match body w with
    | (Normal x, w') => (Normal x, w')
    | (Throw e, w') => handler e w'
    end.

(** A method call on a loaded tank: the tank is the receiver, the clock is
    the service's. *)
Definition on_tank {A} (tank : TankRow.Tank) (method : M OxygenTank.OxygenTank A)
  : M Repositories (A * TankRow.Tank) :=
  fun w =>
    match method (mkWorld (TankRow.entity tank) (clock w) (reads w)) with
    | (Normal x, w') =>
        (Normal (x, {| TankRow.id := TankRow.id tank;
                       TankRow.tankNumber := TankRow.tankNumber tank;
                       TankRow.location := TankRow.location tank;
                       TankRow.pressureUnit := TankRow.pressureUnit tank;
                       TankRow.entity := this w' |}),
         mkWorld (this w) (clock w) (reads w'))
    | (Throw e, w') => (Throw e, mkWorld (this w) (clock w) (reads w'))
    end.

(** [tank.lastReadingAt = timestamp] *)
Definition with_lastReadingAt (at_ : Date) (tank : TankRow.Tank) : TankRow.Tank :=
  {| TankRow.id := TankRow.id tank;
     TankRow.tankNumber := TankRow.tankNumber tank;
     TankRow.location := TankRow.location tank;
     TankRow.pressureUnit := TankRow.pressureUnit tank;
     TankRow.entity := OxygenTank.set_lastReadingAt (Some at_) (TankRow.entity tank) |}.

(** [tankRepository.findOne({ where: { tankNumber } })] *)
Definition findOne_tank (tankNumber : string) : M Repositories (option TankRow.Tank) :=
  read (fun r =>
    find (fun t => (TankRow.tankNumber t =? tankNumber)%string) (tankRepository r)).

(** [alertRepository.findOne({ where: { tankId, type, status } })] *)
Definition matches (tankId : string) (type : AlertType) (status : Alert.AlertStatus)
    (a : AlertRow.Alert) : bool :=
  (AlertRow.tankId a =? tankId)%string &&
  (if AlertType_eq_dec (AlertRow.type a) type then true else false) &&
  Alert.AlertStatus_eqb (AlertRow.status a) status.

Definition findOne_alert (tankId : string) (type : AlertType)
    (status : Alert.AlertStatus) : M Repositories (option AlertRow.Alert) :=
  read (fun r => find (matches tankId type status) (alertRepository r)).

(** [alertRepository.save(alertRepository.create({ ... }))] *)
Definition save_alert (a : AlertRow.Alert) : M Repositories unit :=
  assign (fun r =>
    {| tankRepository := tankRepository r;
       alertRepository := (alertRepository r ++ [a])%list |}).

(** [tankRepository.save(tank)] for a tank that was loaded. *)
Definition save_tank (tank : TankRow.Tank) : M Repositories TankRow.Tank :=
  assign (fun r =>
    {| tankRepository :=
         if existsb (fun t => (TankRow.id t =? TankRow.id tank)%string) (tankRepository r)
         then map (fun t => if (TankRow.id t =? TankRow.id tank)%string then tank else t)
                (tankRepository r)
         else (tankRepository r ++ [tank])%list;
       alertRepository := alertRepository r |}) ;;
  ret tank.

(** [getTankByTankNumber(tankNumber)] *)
Definition getTankByTankNumber (tankNumber : string)
  : M Repositories (option TankRow.Tank) :=
  try_catch (findOne_tank tankNumber)
    (fun _ => throw (Error "Failed to retrieve tank")).

(** [private checkLowLevelAlert(tank)]; [alertThreshold] is
    [config.emergency.alertThreshold]. *)
Definition checkLowLevelAlert (alertThreshold : float) (tank : TankRow.Tank)
  : M Repositories unit :=
  let lowLevelThreshold := alertThreshold in
  if OxygenTank.fillPercentage (TankRow.entity tank) <=? lowLevelThreshold then
    existingAlert <- findOne_alert (TankRow.id tank) TANK_LOW_LEVEL Alert.ACTIVE ;;
    match existingAlert with
    | Some _ => ret tt
    | None =>
        now <- new_Date ;;
        save_alert
          {| AlertRow.title := ("Low Oxygen Level - Tank " ++ TankRow.tankNumber tank)%string;
             AlertRow.type := TANK_LOW_LEVEL;
             AlertRow.category := TANK_MONITORING;
             AlertRow.severity := Alert.HIGH;
             AlertRow.status := Alert.ACTIVE;
             AlertRow.tankId := TankRow.id tank;
             AlertRow.source := "oxygen_tank_service";
             AlertRow.location := TankRow.location tank;
             AlertRow.metadata :=
               LevelData (OxygenTank.currentLevel (TankRow.entity tank))
                 (OxygenTank.capacity (TankRow.entity tank))
                 (OxygenTank.fillPercentage (TankRow.entity tank));
             AlertRow.sensorData :=
               {| pressure := None;
                  level := Some (OxygenTank.currentLevel (TankRow.entity tank));
                  temperature := None; timestamp := now |} |}
    end
  else ret tt.

(** [private checkPressureAlert(tank)] *)
Definition checkPressureAlert (tank : TankRow.Tank) : M Repositories unit :=
  let t := TankRow.entity tank in
  let low := OxygenTank.currentPressure t <? OxygenTank.minPressure t in
  if low || (OxygenTank.maxPressure t <? OxygenTank.currentPressure t) then
    existingAlert <-
      findOne_alert (TankRow.id tank)
        (if low then TANK_LOW_PRESSURE else TANK_HIGH_PRESSURE) Alert.ACTIVE ;;
    match existingAlert with
    | Some _ => ret tt
    | None =>
        let alertType := if low then TANK_LOW_PRESSURE else TANK_HIGH_PRESSURE in
        now <- new_Date ;;
        save_alert
          {| AlertRow.title := ("Pressure Anomaly - Tank " ++ TankRow.tankNumber tank)%string;
             AlertRow.type := alertType;
             AlertRow.category := TANK_MONITORING;
             AlertRow.severity := if low then Alert.HIGH else Alert.MEDIUM;
             AlertRow.status := Alert.ACTIVE;
             AlertRow.tankId := TankRow.id tank;
             AlertRow.source := "oxygen_tank_service";
             AlertRow.location := TankRow.location tank;
             AlertRow.metadata :=
               PressureData (OxygenTank.currentPressure t) (OxygenTank.minPressure t)
                 (OxygenTank.maxPressure t) (TankRow.pressureUnit tank);
             AlertRow.sensorData :=
               {| pressure := Some (OxygenTank.currentPressure t); level := None;
                  temperature := None; timestamp := now |} |}
    end
  else ret tt.

(** [private checkTemperatureAlert(tank)] *)
Definition checkTemperatureAlert (tank : TankRow.Tank) : M Repositories unit :=
  match OxygenTank.temperature (TankRow.entity tank) with
  | None => ret tt
  | Some temperature =>
      let minTemp := (-20)%float in
      let maxTemp := 50 in
      if (temperature <? minTemp) || (maxTemp <? temperature) then
        existingAlert <-
          findOne_alert (TankRow.id tank) ENVIRONMENTAL_HAZARD Alert.ACTIVE ;;
        match existingAlert with
        | Some _ => ret tt
        | None =>
            now <- new_Date ;;
            save_alert
              {| AlertRow.title :=
                   ("Temperature Anomaly - Tank " ++ TankRow.tankNumber tank)%string;
                 AlertRow.type := ENVIRONMENTAL_HAZARD;
                 AlertRow.category := SAFETY;
                 AlertRow.severity := Alert.MEDIUM;
                 AlertRow.status := Alert.ACTIVE;
                 AlertRow.tankId := TankRow.id tank;
                 AlertRow.source := "oxygen_tank_service";
                 AlertRow.location := TankRow.location tank;
                 AlertRow.metadata := TemperatureData temperature minTemp maxTemp;
                 AlertRow.sensorData :=
                   {| pressure := None; level := None;
                      temperature := Some temperature; timestamp := now |} |}
        end
      else ret tt
  end.

(** [updateTankReadings(reading)] *)
Definition updateTankReadings (alertThreshold : float)
    (reading : TankReading.TankReading) : M Repositories TankRow.Tank :=
  try_catch
    (found <- getTankByTankNumber (TankReading.tankNumber reading) ;;
     match found with
     | None => throw (Error "Tank not found")
     | Some tank =>
         updated <-
           on_tank tank
             (OxygenTank.updateReadings (TankReading.currentLevel reading)
                (TankReading.currentPressure reading) (TankReading.temperature reading)
                (TankReading.humidity reading)) ;;
         let tank := with_lastReadingAt (TankReading.timestamp reading) (snd updated) in
         checkLowLevelAlert alertThreshold tank ;;
         checkPressureAlert tank ;;
         checkTemperatureAlert tank ;;
         save_tank tank
     end)
    (fun _ => throw (Error "Failed to update tank readings")).

(** *** Outcomes, for the statements below *)

(** The tank [updateTankReadings] checks and saves: the loaded tank with the
    reading applied and [lastReadingAt] set to the reading's timestamp. *)
Definition reading_applied (reading : TankReading.TankReading) (tank : TankRow.Tank)
  : TankRow.Tank :=
  {| TankRow.id := TankRow.id tank;
     TankRow.tankNumber := TankRow.tankNumber tank;
     TankRow.location := TankRow.location tank;
     TankRow.pressureUnit := TankRow.pressureUnit tank;
     TankRow.entity :=
       OxygenTank.set_lastReadingAt (Some (TankReading.timestamp reading))
         ((match TankReading.humidity reading with
           | Some _ => OxygenTank.set_humidity (TankReading.humidity reading)
           | None => fun t => t
           end)
            ((match TankReading.temperature reading with
              | Some _ => OxygenTank.set_temperature (TankReading.temperature reading)
              | None => fun t => t
              end)
               (OxygenTank.set_fillPercentage
                  (TankReading.currentLevel reading /
                   OxygenTank.capacity (TankRow.entity tank) * 100)
                  (OxygenTank.set_currentPressure (TankReading.currentPressure reading)
                     (OxygenTank.set_currentLevel (TankReading.currentLevel reading)
                        (TankRow.entity tank)))))) |}.

(** What a check does when its condition is [due]: nothing if an Active alert
    of the type is on record for the tank, else it appends [a]. *)
Definition opens (due : bool) (tankId : string) (ty : AlertType) (a : AlertRow.Alert)
    (w : World Repositories) : Completion unit * World Repositories :=
  if due then
    match find (matches tankId ty Alert.ACTIVE) (alertRepository (this w)) with
    | Some _ => (Normal tt, w)
    | None =>
        (Normal tt,
         mkWorld
           {| tankRepository := tankRepository (this w);
              alertRepository := (alertRepository (this w) ++ [a])%list |}
           (clock w) (S (reads w)))
    end
  else (Normal tt, w).

(** The rows of the tanks table once [tank] is saved. *)
Definition saved (tank : TankRow.Tank) (rows : list TankRow.Tank) : list TankRow.Tank :=
  if existsb (fun t => (TankRow.id t =? TankRow.id tank)%string) rows
  then map (fun t => if (TankRow.id t =? TankRow.id tank)%string then tank else t) rows
  else (rows ++ [tank])%list.

End OxygenTankService.

(** ** The lifecycle rules of the specification *)

Module Spec.

Import Alert.

(** The legal transitions of the specification's lifecycle table: acknowledge
    from Active or Escalated, escalate from Active or Acknowledged, resolve
    and dismiss from any state that is not terminal. *)
Definition legal (s : AlertStatus) (t : Transition) : bool :=
  match t, s with
  | Acknowledge _ _, (ACTIVE | ESCALATED) => true
  | Escalate _ _, (ACTIVE | ACKNOWLEDGED) => true
  | Resolve _ _, (ACTIVE | ACKNOWLEDGED | ESCALATED) => true
  | Dismiss _ _, (ACTIVE | ACKNOWLEDGED | ESCALATED) => true
  | _, _ => false
  end.

(** The two errors the specification names. *)
Definition InvalidTransitionError : string := "InvalidTransitionError".
Definition ConfigurationError : string := "ConfigurationError".

(** The rejection the specification asks of an illegal transition: the error
    is raised and status, timestamps and counters are as before. *)
Definition rejected (t : Transition) (w : World Alert) : Prop :=
  fst (transit t w) = Throw InvalidTransitionError /\
  status (this (snd (transit t w))) = status (this w) /\
  stamped (this w) (this (snd (transit t w))) = [] /\
  counters (this (snd (transit t w))) = counters (this w).

End Spec.

(** ** Scenarios *)

Module Scenario.

Import Alert.

(** A clock that reads [t0] first and advances one second per reading. *)
Definition ticking (t0 : Date) : nat -> Date :=
  fun k => t0 + 1000 * Z.of_nat k.

(** A new alert, created at time 0, seen one minute later. *)
Definition active : World Alert := mkWorld (fresh 0) (ticking 60000) 0.

(** An Active alert resolved by an operator. *)
Definition resolved : World Alert :=
  Eval cbv -[ticking] in snd (resolve "opX" (Some "refilled") active).

(** An alert acknowledged by one operator and escalated afterwards, so that
    acknowledging it again is a legal transition. *)
Definition acknowledged_then_escalated : World Alert :=
  Eval cbv -[ticking] in
    snd ((acknowledge "opX" None ;; escalate "lead" "no response") active).

(** An Active alert with auto-escalation and the default delay of 300,
    created 301 seconds before [now]. *)
Definition overdue (now : Date) : World Alert :=
  mkWorld
    {| severity := MEDIUM; status := ACTIVE;
       acknowledgedBy := None; acknowledgedAt := None;
       resolvedBy := None; resolvedAt := None; resolutionNotes := None;
       escalatedTo := None; escalatedAt := None; escalationReason := None;
       escalationLevel := 0; acknowledgmentCount := 0; notificationCount := 0;
       notificationHistory := None; escalationHistory := None; actionHistory := None;
       requiresAcknowledgment := false; requiresResolution := false;
       autoEscalate := true; escalationDelay := 300;
       nextEscalationAt := None; nextOccurrence := None; occurrenceCount := 0;
       notes := None; createdAt := now - 301 * 1000; updatedAt := now - 301 * 1000 |}
    (fun _ => now) 0.

Import OxygenTank.

(** A tank of the given capacity (litres) and refill threshold (percent), full
    and at working pressure. *)
Definition tank (capacity refillThreshold : float) : World OxygenTank :=
  mkWorld
    {| capacity := capacity; currentLevel := capacity; fillPercentage := 100;
       currentPressure := 2000; maxPressure := 2200; minPressure := 100;
       criticalPressure := 50; refillThreshold := refillThreshold;
       isLeaking := false; isDamaged := false;
       nextMaintenanceDate := None; expirationDate := None;
       dailyUsage := 0; lastReadingAt := None; alertSettings := None;
       temperature := None; humidity := None |}
    (ticking 60000) 0.

(** A tanks table with one tank of capacity 100, number TK-1, and no alert
    on record. *)
Definition ward : World OxygenTankService.Repositories :=
  mkWorld
    {| OxygenTankService.tankRepository :=
         [{| OxygenTankService.TankRow.id := "7f3a";
             OxygenTankService.TankRow.tankNumber := "TK-1";
             OxygenTankService.TankRow.location := "Ward 3";
             OxygenTankService.TankRow.pressureUnit := OxygenTank.PSI;
             OxygenTankService.TankRow.entity := this (tank 100 20) |}];
       OxygenTankService.alertRepository := [] |}
    (ticking 60000) 0.

(** A reading for a tank number: level 15, pressure 90, 60 degrees, taken at
    time 59000. *)
Definition reading_for (number : string) : OxygenTankService.TankReading.TankReading :=
  {| OxygenTankService.TankReading.tankNumber := number;
     OxygenTankService.TankReading.currentLevel := 15;
     OxygenTankService.TankReading.currentPressure := 90;
     OxygenTankService.TankReading.temperature := Some 60%float;
     OxygenTankService.TankReading.humidity := None;
     OxygenTankService.TankReading.timestamp := 59000 |}.

End Scenario.

(** * Properties *)

(** Unfolding a method down to the runtime's primitives. *)
Ltac js_unfold :=
  unfold Alert.invoke, Alert.transit, Alert.acknowledge, Alert.resolve, Alert.escalate,
    Alert.dismiss, Alert.addNotification, Alert.addActionHistory, Alert.shouldEscalate,
    Alert.getDuration, OxygenTank.updateReadings, OxygenTank.updateUsageStatistics,
    push, when, bind, ret, read, assign, new_Date in *.

(** ** Symbolic execution of the alert's methods

    Each method completes normally; the lemmas give the world it leaves. *)

Section AlertRuns.

Import Alert.

Variable w : World Alert.

Lemma addActionHistory_run (act who : string) (d : option string) :
  addActionHistory act who d w =
  (Normal tt,
   mkWorld (logged act who (or_empty d) (clock w (reads w)) (this w))
     (clock w) (S (reads w))).
Proof.
  destruct w as [a clk k]; destruct a as [? ? ? ? ? ? ? ? ? ? ? ? ? ? ? h ? ? ? ? ? ? ? ? ? ?].
  destruct h; vm_compute; reflexivity.
Qed.

Lemma acknowledge_run (who : string) (n : option string) :
  acknowledge who n w =
  (Normal tt,
   mkWorld
     (logged "acknowledged" who (or_empty n) (clock w (S (reads w)))
        ((if truthy n
          then set_notes
                 (if truthy (notes (this w))
                  then Some (or_empty (notes (this w)) ++ LF ++ or_empty n)%string
                  else n)
          else fun a => a)
           (set_acknowledgmentCount (acknowledgmentCount (this w) + 1)
              (set_acknowledgedAt (Some (clock w (reads w)))
                 (set_acknowledgedBy (Some who) (set_status ACKNOWLEDGED (this w)))))))
     (clock w) (S (S (reads w)))).
Proof.
  destruct w as [a clk k]; destruct a as [? ? ? ? ? ? ? ? ? ? ? ? ? ? ? h ? ? ? ? ? ? ? ? ? ?].
  destruct n as [[|c n]|]; destruct h; vm_compute; reflexivity.
Qed.

Lemma resolve_run (who : string) (n : option string) :
  resolve who n w =
  (Normal tt,
   mkWorld
     (logged "resolved" who (or_empty n) (clock w (S (reads w)))
        (set_resolutionNotes (or_null n)
           (set_resolvedAt (Some (clock w (reads w)))
              (set_resolvedBy (Some who) (set_status RESOLVED (this w))))))
     (clock w) (S (S (reads w)))).
Proof.
  destruct w as [a clk k]; destruct a as [? ? ? ? ? ? ? ? ? ? ? ? ? ? ? h ? ? ? ? ? ? ? ? ? ?].
  destruct h; vm_compute; reflexivity.
Qed.

Lemma escalate_run (to why : string) :
  escalate to why w =
  (Normal tt,
   mkWorld
     (logged "escalated" to why (clock w (S (S (reads w))))
        (set_escalationHistory
           (Some (entries (escalationHistory (this w)) ++
                  [{| level := escalationLevel (this w) + 1; escalatedTo' := to;
                      escalatedAt' := clock w (S (reads w)); reason := why |}])%list)
           (set_escalationLevel (escalationLevel (this w) + 1)
              (set_escalationReason (Some why)
                 (set_escalatedAt (Some (clock w (reads w)))
                    (set_escalatedTo (Some to) (set_status ESCALATED (this w))))))))
     (clock w) (S (S (S (reads w))))).
Proof.
  destruct w as [a clk k]; destruct a as [? ? ? ? ? ? ? ? ? ? ? ? ? ? eh h ? ? ? ? ? ? ? ? ? ?].
  destruct eh, h; vm_compute; reflexivity.
Qed.

Lemma dismiss_run (who : string) (why : option string) :
  dismiss who why w =
  (Normal tt,
   mkWorld
     (logged "dismissed" who (or_empty why) (clock w (reads w))
        (set_status DISMISSED (this w)))
     (clock w) (S (reads w))).
Proof.
  destruct w as [a clk k]; destruct a as [? ? ? ? ? ? ? ? ? ? ? ? ? ? ? h ? ? ? ? ? ? ? ? ? ?].
  destruct h; vm_compute; reflexivity.
Qed.

Lemma addNotification_run (m : NotificationMethod) (r : string) (s : DeliveryStatus)
    (e : option string) :
  addNotification m r s e w =
  (Normal tt,
   mkWorld
     (set_notificationCount (notificationCount (this w) + 1)
        (set_notificationHistory
           (Some (entries (notificationHistory (this w)) ++
                  [{| method := m; recipient := r; sentAt := clock w (reads w);
                      delivery := s; error := e |}])%list)
           (this w)))
     (clock w) (S (reads w))).
Proof.
  destruct w as [a clk k]; destruct a as [? ? ? ? ? ? ? ? ? ? ? ? ? nh ? ? ? ? ? ? ? ? ? ? ? ?].
  destruct nh; vm_compute; reflexivity.
Qed.

(** [shouldEscalate] compares the whole minutes elapsed with [escalationDelay]. *)
Lemma shouldEscalate_run :
  shouldEscalate w =
  (Normal (autoEscalate (this w) && AlertStatus_eqb (status (this w)) ACTIVE &&
           ((clock w (reads w) - createdAt (this w)) / (1000 * 60)
              >=? escalationDelay (this w))),
   mkWorld (this w) (clock w)
     (if autoEscalate (this w) && AlertStatus_eqb (status (this w)) ACTIVE
      then S (reads w) else reads w)).
Proof.
  js_unfold. cbn. destruct w as [a clk n]. cbn.
  destruct (autoEscalate a); cbn; [|reflexivity].
  destruct (AlertStatus_eqb (status a) ACTIVE); reflexivity.
Qed.

End AlertRuns.

(** ** The alert lifecycle *)

Section AlertLifecycle.

Import Alert.

(** Every transition completes normally, whatever the status it starts from. *)
Lemma transit_completes (t : Transition) (w : World Alert) :
  fst (transit t w) = Normal tt.
Proof.
  destruct t; cbn [transit];
    [rewrite acknowledge_run | rewrite resolve_run | rewrite escalate_run
    | rewrite dismiss_run]; reflexivity.
Qed.

(** C1, as stated, fails: acknowledging a Resolved alert is not a legal
    transition of the lifecycle table, yet the call is not rejected: it
    completes normally, the status becomes Acknowledged and the acknowledgment
    counter moves from 0 to 1. *)
Lemma acknowledge_on_resolved_not_rejected :
  Spec.legal (status (this Scenario.resolved)) (Acknowledge "opY" None) = false /\
  ~ Spec.rejected (Acknowledge "opY" None) Scenario.resolved /\
  fst (acknowledge "opY" None Scenario.resolved) = Normal tt /\
  status (this Scenario.resolved) = RESOLVED /\
  status (this (snd (acknowledge "opY" None Scenario.resolved))) = ACKNOWLEDGED /\
  acknowledgmentCount (this Scenario.resolved) = 0 /\
  acknowledgmentCount (this (snd (acknowledge "opY" None Scenario.resolved))) = 1.
Proof.
  split; [reflexivity|]. split; [|repeat split; reflexivity].
  intros [Hthrow _]. vm_compute in Hthrow. discriminate Hthrow.
Qed.

(** C1, amended: a transition invoked from a status in which the lifecycle
    table does not list it is not checked for legality.  It raises no error
    and is applied as from any other status: the status becomes the
    transition's target, one action-history entry is appended, and the
    acknowledgment counter (for acknowledge) or the escalation level (for
    escalate) grows by one. *)
Theorem illegal_transition_is_applied (w : World Alert) (t : Transition) :
  Spec.legal (status (this w)) t = false ->
  exists w',
    transit t w = (Normal tt, w') /\
    status (this w') = target t /\
    (exists e, actionHistory (this w') =
               Some (entries (actionHistory (this w)) ++ [e])%list) /\
    acknowledgmentCount (this w') =
      acknowledgmentCount (this w) + (match t with Acknowledge _ _ => 1 | _ => 0 end) /\
    escalationLevel (this w') =
      escalationLevel (this w) + (match t with Escalate _ _ => 1 | _ => 0 end).
Proof.
  intros _. destruct t as [who n|who n|to why|who why]; cbn [transit target].
  - rewrite acknowledge_run. eexists. split; [reflexivity|].
    destruct (truthy n); cbn; repeat split; eauto; lia.
  - rewrite resolve_run. eexists. split; [reflexivity|].
    cbn; repeat split; eauto; lia.
  - rewrite escalate_run. eexists. split; [reflexivity|].
    cbn; repeat split; eauto; lia.
  - rewrite dismiss_run. eexists. split; [reflexivity|].
    cbn; repeat split; eauto; lia.
Qed.

(** The amended C1 on the Resolved alert above: acknowledge is applied. *)
Lemma illegal_transition_is_applied_on_resolved :
  Spec.legal (status (this Scenario.resolved)) (Acknowledge "opY" None) = false /\
  exists w',
    transit (Acknowledge "opY" None) Scenario.resolved = (Normal tt, w') /\
    status (this w') = ACKNOWLEDGED /\
    (exists e, actionHistory (this w') =
               Some (entries (actionHistory (this Scenario.resolved)) ++ [e])%list) /\
    acknowledgmentCount (this w') = acknowledgmentCount (this Scenario.resolved) + 1 /\
    escalationLevel (this w') = escalationLevel (this Scenario.resolved) + 0.
Proof.
  split; [reflexivity|].
  apply (illegal_transition_is_applied Scenario.resolved (Acknowledge "opY" None)).
  reflexivity.
Defined.

(** C3, as stated, fails: an alert acknowledged by opX at 60000 and then
    escalated is acknowledged again by opY; the call succeeds and both
    [acknowledgedBy] and [acknowledgedAt] are overwritten. *)
Lemma reacknowledge_overwrites_first :
  acknowledgedAt (this Scenario.acknowledged_then_escalated) = Some 60000 /\
  acknowledgedBy (this Scenario.acknowledged_then_escalated) = Some "opX" /\
  Spec.legal (status (this Scenario.acknowledged_then_escalated))
    (Acknowledge "opY" None) = true /\
  fst (acknowledge "opY" None Scenario.acknowledged_then_escalated) = Normal tt /\
  acknowledgedAt (this (snd (acknowledge "opY" None Scenario.acknowledged_then_escalated)))
    = Some 65000 /\
  acknowledgedBy (this (snd (acknowledge "opY" None Scenario.acknowledged_then_escalated)))
    = Some "opY" /\
  acknowledgedAt (this (snd (acknowledge "opY" None Scenario.acknowledged_then_escalated)))
    <> acknowledgedAt (this Scenario.acknowledged_then_escalated) /\
  acknowledgedBy (this (snd (acknowledge "opY" None Scenario.acknowledged_then_escalated)))
    <> acknowledgedBy (this Scenario.acknowledged_then_escalated).
Proof.
  repeat apply conj; vm_compute; solve [reflexivity | discriminate].
Qed.

(** C3, amended: when [acknowledgedAt] is already set, a further acknowledge
    overwrites [acknowledgedBy] with the new actor and [acknowledgedAt] with
    the current time (the last acknowledgment wins); [acknowledgmentCount]
    grows by one and one action-history entry is appended. *)
Theorem reacknowledge_last_wins (w : World Alert) (who : string) (n : option string) :
  acknowledgedAt (this w) <> None ->
  exists w',
    acknowledge who n w = (Normal tt, w') /\
    acknowledgedBy (this w') = Some who /\
    acknowledgedAt (this w') = Some (clock w (reads w)) /\
    acknowledgmentCount (this w') = acknowledgmentCount (this w) + 1 /\
    actionHistory (this w') =
      Some (entries (actionHistory (this w)) ++
            [{| action := "acknowledged"; performedBy := who;
                performedAt := clock w (S (reads w)); details := or_empty n |}])%list.
Proof.
  intros _. rewrite acknowledge_run. eexists. split; [reflexivity|].
  destruct (truthy n); cbn; repeat split; reflexivity.
Qed.

(** The amended C3 on the alert above: opY replaces opX. *)
Lemma reacknowledge_last_wins_after_escalation :
  acknowledgedAt (this Scenario.acknowledged_then_escalated) <> None /\
  exists w',
    acknowledge "opY" None Scenario.acknowledged_then_escalated = (Normal tt, w') /\
    acknowledgedBy (this w') = Some "opY" /\
    acknowledgedAt (this w') = Some 65000 /\
    acknowledgmentCount (this w') =
      acknowledgmentCount (this Scenario.acknowledged_then_escalated) + 1 /\
    actionHistory (this w') =
      Some (entries (actionHistory (this Scenario.acknowledged_then_escalated)) ++
            [{| action := "acknowledged"; performedBy := "opY";
                performedAt := 66000; details := "" |}])%list.
Proof.
  split; [vm_compute; discriminate|].
  apply (reacknowledge_last_wins Scenario.acknowledged_then_escalated "opY" None).
  vm_compute; discriminate.
Defined.

(** A call raises the escalation level by one when it is an escalation and
    leaves it alone otherwise. *)
Lemma invoke_level (c : Call) (w : World Alert) :
  fst (invoke c w) = Normal tt /\
  escalationLevel (this (snd (invoke c w))) = escalationLevel (this w) + escalations [c].
Proof.
  destruct c as [[who n|who n|to why|who why]|m r s e]; cbn [invoke transit].
  - rewrite acknowledge_run. destruct (truthy n); cbn; split; (reflexivity || lia).
  - rewrite resolve_run. cbn; split; (reflexivity || lia).
  - rewrite escalate_run. cbn; split; (reflexivity || lia).
  - rewrite dismiss_run. cbn; split; (reflexivity || lia).
  - rewrite addNotification_run. cbn; split; (reflexivity || lia).
Qed.

Lemma escalations_cons (c : Call) (cs : list Call) :
  escalations (c :: cs) = escalations [c] + escalations cs.
Proof.
  unfold escalations. cbn [filter]. destruct (is_escalation c); cbn [List.length]; lia.
Qed.

Lemma escalations_nonneg (cs : list Call) : 0 <= escalations cs.
Proof. unfold escalations. lia. Qed.

Lemma invoke_all_level (cs : list Call) :
  forall w : World Alert,
    fst (invoke_all cs w) = Normal tt /\
    escalationLevel (this (snd (invoke_all cs w))) =
      escalationLevel (this w) + escalations cs.
Proof.
  induction cs as [|c cs IH]; intros w; cbn [invoke_all].
  - cbn. split; [reflexivity|lia].
  - unfold bind. destruct (invoke_level c w) as [Hc Hlevel].
    destruct (invoke c w) as [[[]|e] w1]; cbn in Hc, Hlevel; [|discriminate Hc].
    destruct (IH w1) as [Hcs Hlevel']. split; [exact Hcs|].
    rewrite Hlevel', Hlevel, (escalations_cons c cs). lia.
Qed.

(** C4: [escalate] always completes; it sets the status to Escalated, sets
    [escalatedTo], [escalatedAt] and [escalationReason], raises
    [escalationLevel] by exactly one and appends exactly one entry to the
    escalation history and one to the action history.  Across any sequence of
    calls on one alert the escalation level grows by the number of escalations
    among them, so it never decreases. *)
Theorem escalate_effects_and_level_monotone :
  (forall (w : World Alert) (to why : string),
     exists w',
       escalate to why w = (Normal tt, w') /\
       status (this w') = ESCALATED /\
       escalatedTo (this w') = Some to /\
       escalatedAt (this w') = Some (clock w (reads w)) /\
       escalationReason (this w') = Some why /\
       escalationLevel (this w') = escalationLevel (this w) + 1 /\
       escalationHistory (this w') =
         Some (entries (escalationHistory (this w)) ++
               [{| level := escalationLevel (this w) + 1; escalatedTo' := to;
                   escalatedAt' := clock w (S (reads w)); reason := why |}])%list /\
       actionHistory (this w') =
         Some (entries (actionHistory (this w)) ++
               [{| action := "escalated"; performedBy := to;
                   performedAt := clock w (S (S (reads w))); details := why |}])%list) /\
  (forall (cs : list Call) (w : World Alert),
     fst (invoke_all cs w) = Normal tt /\
     escalationLevel (this (snd (invoke_all cs w))) =
       escalationLevel (this w) + escalations cs /\
     escalationLevel (this w) <= escalationLevel (this (snd (invoke_all cs w)))).
Proof.
  split.
  - intros w to why. rewrite escalate_run. eexists. split; [reflexivity|].
    cbn. repeat split; reflexivity.
  - intros cs w. destruct (invoke_all_level cs w) as [Hrun Hlevel].
    pose proof (escalations_nonneg cs). repeat split; [exact Hrun|exact Hlevel|lia].
Qed.

(** C7, as stated, fails for dismiss: dismissing a new alert appends its
    action-history entry but leaves every timestamp column as it was, so the
    number of timestamp columns it sets is zero, not one. *)
Lemma dismiss_sets_no_timestamp :
  fst (dismiss "opX" None Scenario.active) = Normal tt /\
  List.length (entries (actionHistory (this (snd (dismiss "opX" None Scenario.active)))))
    = 1%nat /\
  stamped (this Scenario.active) (this (snd (dismiss "opX" None Scenario.active))) = [] /\
  List.length (stamped (this Scenario.active)
            (this (snd (dismiss "opX" None Scenario.active)))) <> 1%nat.
Proof.
  repeat apply conj; vm_compute; solve [reflexivity | discriminate].
Qed.

(** C7, amended: every acknowledge, resolve, escalate and dismiss completes
    and appends exactly one action-history entry.  Acknowledge, resolve and
    escalate each set exactly one timestamp column, their own
    ([acknowledgedAt], [resolvedAt], [escalatedAt]), to the current time and
    leave the other timestamp columns as they were; dismiss has no timestamp
    column of its own and leaves all of them as they were. *)
Theorem transition_logs_once_and_stamps_its_column (w : World Alert) (t : Transition) :
  exists w',
    transit t w = (Normal tt, w') /\
    (exists e, actionHistory (this w') =
               Some (entries (actionHistory (this w)) ++ [e])%list) /\
    (forall f, stamp t = Some f -> timestamp f (this w') = Some (clock w (reads w))) /\
    (forall f, stamp t <> Some f -> timestamp f (this w') = timestamp f (this w)) /\
    (forall who why, t = Dismiss who why ->
       forall f, timestamp f (this w') = timestamp f (this w)).
Proof.
  destruct t as [who n|who n|to why|who why]; cbn [transit stamp].
  - rewrite acknowledge_run. eexists. split; [reflexivity|].
    destruct (truthy n); cbn [this]; (split; [eexists; reflexivity|]);
      (split; [intros f [= <-]; reflexivity|]);
      (split; [intros [] Hf; try reflexivity; congruence | discriminate]).
  - rewrite resolve_run. eexists. split; [reflexivity|]. cbn [this].
    split; [eexists; reflexivity|].
    split; [intros f [= <-]; reflexivity|].
    split; [intros [] Hf; try reflexivity; congruence | discriminate].
  - rewrite escalate_run. eexists. split; [reflexivity|]. cbn [this].
    split; [eexists; reflexivity|].
    split; [intros f [= <-]; reflexivity|].
    split; [intros [] Hf; try reflexivity; congruence | discriminate].
  - rewrite dismiss_run. eexists. split; [reflexivity|]. cbn [this].
    split; [eexists; reflexivity|].
    split; [discriminate|].
    split; intros; destruct f; reflexivity.
Qed.

(** C8: whatever the status of the alert, [addNotification] completes,
    appends exactly one entry to the notification history, raises
    [notificationCount] by one and leaves the status as it was. *)
Theorem addNotification_in_any_status (w : World Alert) (m : NotificationMethod)
    (r : string) (s : DeliveryStatus) (e : option string) :
  exists w',
    addNotification m r s e w = (Normal tt, w') /\
    notificationHistory (this w') =
      Some (entries (notificationHistory (this w)) ++
            [{| method := m; recipient := r; sentAt := clock w (reads w);
                delivery := s; error := e |}])%list /\
    List.length (entries (notificationHistory (this w'))) =
      S (List.length (entries (notificationHistory (this w)))) /\
    notificationCount (this w') = notificationCount (this w) + 1 /\
    status (this w') = status (this w).
Proof.
  rewrite addNotification_run. eexists. split; [reflexivity|]. cbn.
  repeat split; try reflexivity.
  rewrite length_app. cbn. lia.
Qed.



(** C2 fails on the code at the specification's own scenario.  An Active alert
    with auto-escalation, the default delay of 300 (seconds, by the column's
    comment) and created 301 seconds ago meets every condition of the claim,
    yet [shouldEscalate] answers false: it compares whole minutes elapsed
    (here 5) with the delay. *)
Theorem shouldEscalate_false_after_301_seconds (now : Date) :
  autoEscalate (this (Scenario.overdue now)) = true /\
  status (this (Scenario.overdue now)) = ACTIVE /\
  escalationDelay (this (Scenario.overdue now)) = 300 /\
  clock (Scenario.overdue now) 0 - createdAt (this (Scenario.overdue now)) = 301 * 1000 /\
  fst (getDuration (Scenario.overdue now)) = Normal 5 /\
  fst (shouldEscalate (Scenario.overdue now)) = Normal false.
Proof.
  assert (E : forall x, x = now - 301000 -> now - x = 301000) by (intros; lia).
  repeat apply conj; try reflexivity.
  - cbn. lia.
  - cbn. rewrite E by reflexivity. reflexivity.
  - rewrite shouldEscalate_run. cbn. rewrite E by reflexivity. reflexivity.
Qed.

End AlertLifecycle.

(** ** The tank's readings and threshold queries *)

Section TankReadings.

Import OxygenTank.

Local Open Scope float_scope.

(** A float that compares equal to zero is one of the two zeros. *)
Lemma eqb_zero_inv (c : float) :
  (c =? 0) = true -> exists s, Prim2SF c = S754_zero s.
Proof.
  rewrite eqb_spec. change (Prim2SF 0) with (S754_zero false).
  destruct (Prim2SF c) as [s|s| |s m e]; cbn; try discriminate.
  - intros _. exists s. reflexivity.
  - destruct s; discriminate.
  - destruct s; discriminate.
Qed.

(** IEEE division by a zero: an infinity, or NaN for [0 / 0] and [NaN / 0]. *)
Lemma div_by_zero (x c : float) :
  (c =? 0) = true -> x / c = infinity \/ x / c = neg_infinity \/ x / c = nan.
Proof.
  intros Hc. destruct (eqb_zero_inv c Hc) as [s Hs].
  rewrite <- (SF2Prim_Prim2SF (x / c)), div_spec, Hs.
  destruct (Prim2SF x) as [sx|sx| |sx m e]; destruct s; try destruct sx; cbn; auto.
Qed.

(** [updateReadings] completes normally, whatever the capacity. *)
Lemma updateReadings_run (w : World OxygenTank) (l p : float) (temp hum : option float) :
  updateReadings l p temp hum w =
  (Normal tt,
   mkWorld
     (set_lastReadingAt (Some (clock w (S (reads w))))
        ((match hum with Some _ => set_humidity hum | None => fun t => t end)
           ((match temp with Some _ => set_temperature temp | None => fun t => t end)
              (set_lastReadingAt (Some (clock w (reads w)))
                 (set_fillPercentage (l / capacity (this w) * 100)
                    (set_currentPressure p (set_currentLevel l (this w))))))))
     (clock w) (S (S (reads w)))).
Proof.
  destruct w as [t clk k]; destruct t; destruct temp, hum; vm_compute; reflexivity.
Qed.

(** C5 fails on the code.  A capacity of zero is a value the entity accepts
    ([@Min(0)]), yet on such a tank a reading of level 15 raises no
    [ConfigurationError]: the call completes, the division by the zero
    capacity is performed, and [fillPercentage] holds its IEEE result,
    [Infinity] (and [NaN] for a level of 0), which is outside the range
    [@Min(0) @Max(100)] that the entity itself declares for that column. *)
Lemma zero_capacity_raises_nothing :
  capacity (this (Scenario.tank 0 20)) = 0 /\
  fst (updateReadings 15 2000 None None (Scenario.tank 0 20)) = Normal tt /\
  fst (updateReadings 15 2000 None None (Scenario.tank 0 20))
    <> Throw Spec.ConfigurationError /\
  fillPercentage (this (snd (updateReadings 15 2000 None None (Scenario.tank 0 20))))
    = infinity /\
  fillPercentage (this (snd (updateReadings 0 2000 None None (Scenario.tank 0 20))))
    = nan /\
  fillPercentage_declared
    (fillPercentage (this (snd (updateReadings 15 2000 None None (Scenario.tank 0 20)))))
    = false /\
  fillPercentage_declared
    (fillPercentage (this (snd (updateReadings 0 2000 None None (Scenario.tank 0 20)))))
    = false.
Proof.
  repeat apply conj; vm_compute; solve [reflexivity | discriminate].
Qed.

(** The same defect on every tank whose capacity is zero and for every
    reading: [updateReadings] raises no error, performs the division and
    stores [currentLevel / capacity * 100] in [fillPercentage], which is then
    [Infinity], [-Infinity] or [NaN]; the level and the pressure of the reading
    are stored as for any other tank. *)
Theorem zero_capacity_is_divided (w : World OxygenTank) (l p : float)
    (temp hum : option float) :
  (capacity (this w) =? 0) = true ->
  exists w',
    updateReadings l p temp hum w = (Normal tt, w') /\
    fillPercentage (this w') = l / capacity (this w) * 100 /\
    (fillPercentage (this w') = infinity \/
     fillPercentage (this w') = neg_infinity \/
     fillPercentage (this w') = nan) /\
    currentLevel (this w') = l /\
    currentPressure (this w') = p.
Proof.
  intros Hc. rewrite updateReadings_run. eexists. split; [reflexivity|].
  assert (Hfill : forall q : float,
             fillPercentage
               (set_lastReadingAt (Some (clock w (S (reads w))))
                  ((match hum with Some _ => set_humidity hum | None => fun t => t end)
                     ((match temp with
                       | Some _ => set_temperature temp
                       | None => fun t => t
                       end)
                        (set_lastReadingAt (Some (clock w (reads w)))
                           (set_fillPercentage q
                              (set_currentPressure p (set_currentLevel l (this w))))))))
             = q) by (intros q; destruct temp, hum; reflexivity).
  cbn [this]. rewrite Hfill. split; [reflexivity|]. split.
  - destruct (div_by_zero l (capacity (this w)) Hc) as [E|[E|E]]; rewrite E; auto.
  - destruct temp, hum; split; reflexivity.
Qed.

(** The tank of capacity zero above, at level 15. *)
Lemma zero_capacity_is_divided_at_level_15 :
  (capacity (this (Scenario.tank 0 20)) =? 0) = true /\
  exists w',
    updateReadings 15 2000 None None (Scenario.tank 0 20) = (Normal tt, w') /\
    fillPercentage (this w') = 15 / capacity (this (Scenario.tank 0 20)) * 100 /\
    (fillPercentage (this w') = infinity \/
     fillPercentage (this w') = neg_infinity \/
     fillPercentage (this w') = nan) /\
    currentLevel (this w') = 15 /\
    currentPressure (this w') = 2000.
Proof.
  split; [reflexivity|].
  apply (zero_capacity_is_divided (Scenario.tank 0 20) 15 2000 None None).
  reflexivity.
Defined.

(** On a tank of capacity zero the fill percentage a reading stores is never
    within the range the entity declares for it. *)
Lemma zero_capacity_leaves_declared_range (w : World OxygenTank) (l p : float)
    (temp hum : option float) :
  (capacity (this w) =? 0) = true ->
  fillPercentage_declared
    (fillPercentage (this (snd (updateReadings l p temp hum w)))) = false.
Proof.
  intros Hc.
  destruct (zero_capacity_is_divided w l p temp hum Hc) as (w' & Hrun & _ & Hcases & _).
  rewrite Hrun. cbn [snd].
  destruct Hcases as [E|[E|E]]; rewrite E; reflexivity.
Qed.



(** C10: [isCritical] holds exactly when the pressure is at most
    [criticalPressure] or the fill percentage is at most 10.  The 10 is a
    constant of the method: two tanks that agree on the pressure, the critical
    pressure and the fill percentage get the same answer, whatever their refill
    threshold and alert settings. *)
Theorem isCritical_fixed_floor (t : OxygenTank) :
  (isCritical t = true <->
   (currentPressure t <=? criticalPressure t) = true \/
   (fillPercentage t <=? 10) = true) /\
  (forall t' : OxygenTank,
     currentPressure t' = currentPressure t ->
     criticalPressure t' = criticalPressure t ->
     fillPercentage t' = fillPercentage t ->
     isCritical t' = isCritical t).
Proof.
  unfold isCritical. split.
  - apply orb_true_iff.
  - intros t' -> -> ->. reflexivity.
Qed.

End TankReadings.

(** * Further properties of the alert's methods *)

Section AlertSequences.

Import Alert.

(** A call completes normally, so a sequence runs call after call. *)
Lemma invoke_all_cons (c : Call) (cs : list Call) (w : World Alert) :
  invoke_all (c :: cs) w = invoke_all cs (snd (invoke c w)).
Proof.
  cbn [invoke_all]. unfold bind. pose proof (invoke_level c w) as [Hc _].
  destruct (invoke c w) as [[[]|e] w1]; cbn in Hc; [reflexivity|discriminate Hc].
Qed.

Lemma invoke_all_app (cs cs' : list Call) :
  forall w, invoke_all (cs ++ cs') w = invoke_all cs' (snd (invoke_all cs w)).
Proof.
  induction cs as [|c cs IH]; intros w; [reflexivity|].
  cbn [app]. rewrite !invoke_all_cons. apply IH.
Qed.

Lemma count_cons (p : Call -> bool) (c : Call) (cs : list Call) :
  count p (c :: cs) = ((if p c then 1 else 0) + count p cs)%nat.
Proof. unfold count. cbn [filter]. destruct (p c); reflexivity. Qed.

(** What one call appends to the three histories and adds to the counters. *)
Lemma invoke_histories (c : Call) (w : World Alert) :
  (exists la, entries (actionHistory (this (snd (invoke c w)))) =
              (entries (actionHistory (this w)) ++ la)%list /\
              List.length la = if is_transition c then 1%nat else 0%nat) /\
  (exists le, entries (escalationHistory (this (snd (invoke c w)))) =
              (entries (escalationHistory (this w)) ++ le)%list /\
              List.length le = if is_escalation c then 1%nat else 0%nat) /\
  (exists ln, entries (notificationHistory (this (snd (invoke c w)))) =
              (entries (notificationHistory (this w)) ++ ln)%list /\
              List.length ln = if is_transition c then 0%nat else 1%nat).
Proof.
  destruct c as [[who n|who n|to why|who why]|m r s e]; cbn [invoke transit].
  - rewrite acknowledge_run. destruct (truthy n); cbn;
      (split; [eexists; split; reflexivity|]);
      split; exists []; rewrite app_nil_r; split; reflexivity.
  - rewrite resolve_run. cbn. split; [eexists; split; reflexivity|].
    split; exists []; rewrite app_nil_r; split; reflexivity.
  - rewrite escalate_run. cbn. split; [eexists; split; reflexivity|].
    split; [eexists; split; reflexivity|].
    exists []; rewrite app_nil_r; split; reflexivity.
  - rewrite dismiss_run. cbn. split; [eexists; split; reflexivity|].
    split; exists []; rewrite app_nil_r; split; reflexivity.
  - rewrite addNotification_run. cbn.
    split; [exists []; rewrite app_nil_r; split; reflexivity|].
    split; [exists []; rewrite app_nil_r; split; reflexivity|].
    eexists; split; reflexivity.
Qed.

(** The histories over a sequence of calls. *)
Lemma invoke_all_histories (cs : list Call) (w : World Alert) :
  (exists la, entries (actionHistory (this (snd (invoke_all cs w)))) =
              (entries (actionHistory (this w)) ++ la)%list /\
              List.length la = count is_transition cs) /\
  (exists le, entries (escalationHistory (this (snd (invoke_all cs w)))) =
              (entries (escalationHistory (this w)) ++ le)%list /\
              List.length le = count is_escalation cs) /\
  (exists ln, entries (notificationHistory (this (snd (invoke_all cs w)))) =
              (entries (notificationHistory (this w)) ++ ln)%list /\
              List.length ln = count (fun c => negb (is_transition c)) cs).
Proof.
  revert w. induction cs as [|c cs IH]; intros w.
  - cbn. repeat split; exists []; rewrite app_nil_r; split; reflexivity.
  - rewrite invoke_all_cons.
    destruct (invoke_histories c w) as [[la [Ha La]] [[le [He Le]] [ln [Hn Ln]]]].
    destruct (IH (snd (invoke c w))) as [[la' [Ha' La']] [[le' [He' Le']] [ln' [Hn' Ln']]]].
    rewrite !count_cons.
    split; [|split].
    + exists (la ++ la')%list. rewrite Ha', Ha, <- app_assoc, length_app, La, La'.
      split; reflexivity.
    + exists (le ++ le')%list. rewrite He', He, <- app_assoc, length_app, Le, Le'.
      split; reflexivity.
    + exists (ln ++ ln')%list. rewrite Hn', Hn, <- app_assoc, length_app, Ln, Ln'.
      split; [reflexivity|]. destruct (is_transition c); reflexivity.
Qed.

(** X1. The three histories are append-only over any sequence of calls: what
    was recorded stays, in place, and the action history gains one entry per
    transition, the escalation history one per escalation and the notification
    history one per recorded notification. *)
Theorem histories_are_append_only (cs : list Call) (w : World Alert) :
  (exists la, entries (actionHistory (this (snd (invoke_all cs w)))) =
              (entries (actionHistory (this w)) ++ la)%list /\
              List.length la = count is_transition cs) /\
  (exists le, entries (escalationHistory (this (snd (invoke_all cs w)))) =
              (entries (escalationHistory (this w)) ++ le)%list /\
              List.length le = count is_escalation cs) /\
  (exists ln, entries (notificationHistory (this (snd (invoke_all cs w)))) =
              (entries (notificationHistory (this w)) ++ ln)%list /\
              List.length ln = count (fun c => negb (is_transition c)) cs).
Proof. exact (invoke_all_histories cs w). Qed.

(** What one call adds to the two counters that [escalate] leaves alone. *)
Lemma invoke_counters (c : Call) (w : World Alert) :
  acknowledgmentCount (this (snd (invoke c w))) =
    acknowledgmentCount (this w) + Z.of_nat (count is_acknowledgment [c]) /\
  notificationCount (this (snd (invoke c w))) =
    notificationCount (this w) + Z.of_nat (count (fun c => negb (is_transition c)) [c]).
Proof.
  destruct c as [[who n|who n|to why|who why]|m r s e]; cbn [invoke transit].
  - rewrite acknowledge_run. destruct (truthy n); cbn; split; lia.
  - rewrite resolve_run. cbn; split; lia.
  - rewrite escalate_run. cbn; split; lia.
  - rewrite dismiss_run. cbn; split; lia.
  - rewrite addNotification_run. cbn; split; lia.
Qed.

(** The two counters over a sequence of calls. *)
Lemma invoke_all_counters (cs : list Call) (w : World Alert) :
  acknowledgmentCount (this (snd (invoke_all cs w))) =
    acknowledgmentCount (this w) + Z.of_nat (count is_acknowledgment cs) /\
  notificationCount (this (snd (invoke_all cs w))) =
    notificationCount (this w) + Z.of_nat (count (fun c => negb (is_transition c)) cs).
Proof.
  revert w. induction cs as [|c cs IH]; intros w.
  - cbn. split; lia.
  - rewrite invoke_all_cons. destruct (IH (snd (invoke c w))) as [Ha Hn].
    destruct (invoke_counters c w) as [Ha1 Hn1].
    rewrite Ha, Hn, Ha1, Hn1, !(count_cons _ c cs), !(count_cons _ c []).
    unfold count. cbn [filter List.length]. split; lia.
Qed.

(** X2. Over any sequence of calls [acknowledgmentCount] grows by the number
    of acknowledgments and [notificationCount] by the number of recorded
    notifications; no other call moves them and nothing ever lowers them. *)
Theorem counters_count_their_calls (cs : list Call) (w : World Alert) :
  acknowledgmentCount (this (snd (invoke_all cs w))) =
    acknowledgmentCount (this w) + Z.of_nat (count is_acknowledgment cs) /\
  notificationCount (this (snd (invoke_all cs w))) =
    notificationCount (this w) + Z.of_nat (count (fun c => negb (is_transition c)) cs).
Proof. exact (invoke_all_counters cs w). Qed.

(** X3. An alert whose escalation level equals the length of its escalation
    history, and whose notification count equals the length of its
    notification history, keeps both equalities through any sequence of
    calls. *)
Theorem counters_match_histories (cs : list Call) (w : World Alert) :
  escalationLevel (this w) =
    Z.of_nat (List.length (entries (escalationHistory (this w)))) ->
  notificationCount (this w) =
    Z.of_nat (List.length (entries (notificationHistory (this w)))) ->
  escalationLevel (this (snd (invoke_all cs w))) =
    Z.of_nat (List.length (entries (escalationHistory (this (snd (invoke_all cs w)))))) /\
  notificationCount (this (snd (invoke_all cs w))) =
    Z.of_nat (List.length (entries (notificationHistory (this (snd (invoke_all cs w)))))).
Proof.
  intros Hlevel Hcount.
  destruct (invoke_all_histories cs w) as [_ [[le [He Le]] [ln [Hn Ln]]]].
  destruct (invoke_all_level cs w) as [_ Hlevel'].
  destruct (invoke_all_counters cs w) as [_ Hcount'].
  rewrite Hlevel', Hcount', He, Hn, !length_app, Le, Ln, Hlevel, Hcount.
  unfold escalations, count. split; lia.
Qed.

Lemma counters_match_histories_from_new :
  escalationLevel (this Scenario.active) =
    Z.of_nat (List.length (entries (escalationHistory (this Scenario.active)))) /\
  notificationCount (this Scenario.active) =
    Z.of_nat (List.length (entries (notificationHistory (this Scenario.active)))) /\
  escalationLevel
    (this (snd (invoke_all [Transit (Escalate "lead" "timeout");
                            AddNotification SMS "lead" sent None] Scenario.active))) =
    Z.of_nat (List.length (entries (escalationHistory
      (this (snd (invoke_all [Transit (Escalate "lead" "timeout");
                              AddNotification SMS "lead" sent None] Scenario.active)))))) /\
  notificationCount
    (this (snd (invoke_all [Transit (Escalate "lead" "timeout");
                            AddNotification SMS "lead" sent None] Scenario.active))) =
    Z.of_nat (List.length (entries (notificationHistory
      (this (snd (invoke_all [Transit (Escalate "lead" "timeout");
                              AddNotification SMS "lead" sent None] Scenario.active)))))).
Proof.
  split; [reflexivity|]. split; [reflexivity|].
  apply (counters_match_histories
           [Transit (Escalate "lead" "timeout"); AddNotification SMS "lead" sent None]
           Scenario.active); reflexivity.
Defined.

(** The escalation entry a call appends carries the level just reached. *)
Lemma invoke_escalation_levels (c : Call) (w : World Alert) :
  exists le,
    entries (escalationHistory (this (snd (invoke c w)))) =
      (entries (escalationHistory (this w)) ++ le)%list /\
    map level le =
      map (fun k => escalationLevel (this w) + Z.of_nat k)
        (seq 1 (count is_escalation [c])).
Proof.
  destruct c as [[who n|who n|to why|who why]|m r s e]; cbn [invoke transit].
  - rewrite acknowledge_run. destruct (truthy n); cbn;
      exists []; rewrite app_nil_r; split; reflexivity.
  - rewrite resolve_run. cbn. exists []; rewrite app_nil_r; split; reflexivity.
  - rewrite escalate_run. cbn. eexists; split; reflexivity.
  - rewrite dismiss_run. cbn. exists []; rewrite app_nil_r; split; reflexivity.
  - rewrite addNotification_run. cbn. exists []; rewrite app_nil_r; split; reflexivity.
Qed.

(** X4. The escalation entries appended by a sequence of calls are numbered
    consecutively from the alert's level: with the level at [n] before, they
    carry the levels [n + 1], [n + 2], ... in the order of the escalations. *)
Theorem escalation_entries_are_numbered (cs : list Call) (w : World Alert) :
  exists le,
    entries (escalationHistory (this (snd (invoke_all cs w)))) =
      (entries (escalationHistory (this w)) ++ le)%list /\
    map level le =
      map (fun k => escalationLevel (this w) + Z.of_nat k)
        (seq 1 (count is_escalation cs)).
Proof.
  revert w. induction cs as [|c cs IH]; intros w.
  - exists []. cbn. rewrite app_nil_r. split; reflexivity.
  - rewrite invoke_all_cons.
    destruct (invoke_escalation_levels c w) as [le [He Le]].
    destruct (IH (snd (invoke c w))) as [le' [He' Le']].
    exists (le ++ le')%list. split; [rewrite He', He, <- app_assoc; reflexivity|].
    rewrite map_app, Le, Le'. destruct (invoke_level c w) as [_ Hlevel].
    rewrite Hlevel. rewrite (count_cons _ c cs). unfold escalations, count.
    cbn [filter]. destruct (is_escalation c); cbn [List.length Nat.add].
    + cbn [seq map app]. f_equal.
      rewrite <- (seq_shift (List.length (filter is_escalation cs)) 1), map_map.
      apply map_ext. intros k. lia.
    + cbn [seq map app]. apply map_ext. intros k. lia.
Qed.

(** The status a call leaves. *)
Lemma invoke_status (c : Call) (w : World Alert) :
  status (this (snd (invoke c w))) =
    match c with
    | Transit t => target t
    | AddNotification _ _ _ _ => status (this w)
    end.
Proof.
  destruct c as [[who n|who n|to why|who why]|m r s e]; cbn [invoke transit].
  - rewrite acknowledge_run. destruct (truthy n); reflexivity.
  - rewrite resolve_run. reflexivity.
  - rewrite escalate_run. reflexivity.
  - rewrite dismiss_run. reflexivity.
  - rewrite addNotification_run. reflexivity.
Qed.

Lemma last_transition_none (cs : list Call) :
  last_transition cs = None <-> count is_transition cs = 0%nat.
Proof.
  induction cs as [|c cs IH]; [cbn; tauto|].
  rewrite count_cons. cbn [last_transition].
  destruct (last_transition cs) as [t|].
  - split; [discriminate|]. intros H.
    assert (H0 : count is_transition cs = 0%nat) by lia.
    apply IH in H0. discriminate H0.
  - destruct c as [t|m r s e]; cbn [is_transition].
    + split; [discriminate|lia].
    + split; [intros _; cbn; apply IH; reflexivity|reflexivity].
Qed.

(** X5. After any sequence of calls the status is the target of the last
    transition in it, or the status before when there was none.  No method
    assigns Active, so once a transition has been applied the alert is not
    Active again: it no longer needs immediate attention and is never due for
    auto-escalation. *)
Theorem status_is_last_transition (cs : list Call) (w : World Alert) :
  status (this (snd (invoke_all cs w))) =
    match last_transition cs with
    | Some t => target t
    | None => status (this w)
    end /\
  (count is_transition cs <> 0%nat ->
   status (this (snd (invoke_all cs w))) <> ACTIVE /\
   needsImmediateAttention (this (snd (invoke_all cs w))) = false /\
   fst (shouldEscalate (snd (invoke_all cs w))) = Normal false).
Proof.
  assert (Hstatus : forall cs w,
             status (this (snd (invoke_all cs w))) =
               match last_transition cs with
               | Some t => target t
               | None => status (this w)
               end).
  { clear. induction cs as [|c cs IH]; intros w; [reflexivity|].
    rewrite invoke_all_cons, IH. cbn [last_transition].
    destruct (last_transition cs) as [t|]; [reflexivity|].
    rewrite invoke_status. destruct c; reflexivity. }
  split; [apply Hstatus|]. intros Hsome.
  assert (Hnot : status (this (snd (invoke_all cs w))) <> ACTIVE).
  { rewrite Hstatus. destruct (last_transition cs) as [t|] eqn:Hlast.
    - destruct t; discriminate.
    - apply last_transition_none in Hlast. contradiction. }
  split; [exact Hnot|]. split.
  - unfold needsImmediateAttention.
    destruct (status (this (snd (invoke_all cs w)))); try reflexivity. contradiction.
  - rewrite shouldEscalate_run. cbn [fst].
    destruct (status (this (snd (invoke_all cs w)))); cbn;
      rewrite ?andb_false_r; try reflexivity. contradiction.
Qed.

(** Whole minutes reach [d] exactly when the milliseconds reach [d] minutes. *)
Lemma minutes_reach (x d : Z) : (x / (1000 * 60) >=? d) = true <-> d * 60000 <= x.
Proof.
  change (1000 * 60) with 60000. rewrite Z.geb_le. split; intros H.
  - pose proof (Z.mul_div_le x 60000 ltac:(lia)). nia.
  - apply Z.div_le_lower_bound; lia.
Qed.

(** X6. [shouldEscalate] always answers, and answers true exactly when the
    alert auto-escalates, is Active and was created at least [escalationDelay]
    minutes (of 60000 ms) before the clock reading: the delay is counted in
    minutes.  The answer is monotone in time: once true for an alert it is true
    at every later reading. *)
Theorem shouldEscalate_counts_minutes (w : World Alert) :
  exists b,
    fst (shouldEscalate w) = Normal b /\
    (b = true <->
     autoEscalate (this w) = true /\ status (this w) = ACTIVE /\
     escalationDelay (this w) * 60000 <= clock w (reads w) - createdAt (this w)) /\
    (forall w2 : World Alert,
       this w2 = this w -> clock w (reads w) <= clock w2 (reads w2) ->
       b = true -> fst (shouldEscalate w2) = Normal true).
Proof.
  assert (Hiff : forall w : World Alert,
             autoEscalate (this w) && AlertStatus_eqb (status (this w)) ACTIVE &&
             ((clock w (reads w) - createdAt (this w)) / (1000 * 60)
                >=? escalationDelay (this w)) = true <->
             autoEscalate (this w) = true /\ status (this w) = ACTIVE /\
             escalationDelay (this w) * 60000 <= clock w (reads w) - createdAt (this w)).
  { clear. intros w. rewrite !andb_true_iff, minutes_reach.
    assert (AlertStatus_eqb (status (this w)) ACTIVE = true <-> status (this w) = ACTIVE)
      by (destruct (status (this w)); cbn; split; congruence).
    tauto. }
  eexists. rewrite shouldEscalate_run. split; [reflexivity|]. split; [apply Hiff|].
  intros w2 Hthis Hlater Hb. rewrite shouldEscalate_run. cbn [fst]. f_equal.
  apply Hiff. apply Hiff in Hb. rewrite Hthis. intuition lia.
Qed.

(** X7. Right after an acknowledgment [getTimeSinceAcknowledgment] gives the
    whole minutes between the two clock readings, which is not negative when
    the clock does not run backwards; likewise [getTimeSinceResolution] after
    a resolution.  On an alert never acknowledged (never resolved) the answer
    is null and the clock is not read. *)
Theorem time_since_transition (w : World Alert) (who : string) (n : option string) :
  (forall i j : nat, (i <= j)%nat -> clock w i <= clock w j) ->
  (exists m w',
     (acknowledge who n ;; getTimeSinceAcknowledgment) w = (Normal (Some m), w') /\
     m = (clock w (S (S (reads w))) - clock w (reads w)) / 60000 /\ 0 <= m) /\
  (exists m w',
     (resolve who n ;; getTimeSinceResolution) w = (Normal (Some m), w') /\
     m = (clock w (S (S (reads w))) - clock w (reads w)) / 60000 /\ 0 <= m) /\
  (acknowledgedAt (this w) = None -> getTimeSinceAcknowledgment w = (Normal None, w)) /\
  (resolvedAt (this w) = None -> getTimeSinceResolution w = (Normal None, w)).
Proof.
  intros Hclock.
  assert (Hm : 0 <= (clock w (S (S (reads w))) - clock w (reads w)) / 60000).
  { apply Z.div_pos; [|lia]. pose proof (Hclock (reads w) (S (S (reads w)))). lia. }
  split; [|split; [|split]].
  - unfold bind at 1. rewrite acknowledge_run.
    unfold getTimeSinceAcknowledgment, bind, read, new_Date, ret.
    destruct (truthy n); cbn; do 2 eexists; (split; [reflexivity|]); split;
      solve [reflexivity | exact Hm].
  - unfold bind at 1. rewrite resolve_run.
    unfold getTimeSinceResolution, bind, read, new_Date, ret.
    cbn; do 2 eexists; (split; [reflexivity|]); split; solve [reflexivity | exact Hm].
  - intros Hnone. unfold getTimeSinceAcknowledgment, bind, read, ret. cbn.
    rewrite Hnone. reflexivity.
  - intros Hnone. unfold getTimeSinceResolution, bind, read, ret. cbn.
    rewrite Hnone. reflexivity.
Qed.

Lemma ticking_monotone (t0 : Date) (i j : nat) :
  (i <= j)%nat -> Scenario.ticking t0 i <= Scenario.ticking t0 j.
Proof. unfold Scenario.ticking. lia. Qed.

Lemma time_since_transition_on_ticking_clock :
  (exists m w',
     (acknowledge "opX" None ;; getTimeSinceAcknowledgment) Scenario.active
       = (Normal (Some m), w') /\ m = 0) /\
  (getTimeSinceResolution Scenario.active = (Normal None, Scenario.active)).
Proof.
  destruct (time_since_transition Scenario.active "opX" None
              (ticking_monotone 60000)) as [[m [w' [Hrun [Hm _]]]] [_ [_ Hnull]]].
  split.
  - exists m, w'. split; [exact Hrun|]. rewrite Hm. reflexivity.
  - apply Hnull. reflexivity.
Defined.

(** What one call does to the free-text notes. *)
Lemma invoke_notes (c : Call) (w : World Alert) :
  exists suffix,
    or_empty (notes (this (snd (invoke c w)))) =
      (or_empty (notes (this w)) ++ suffix)%string.
Proof.
  assert (Hnil : forall s : string, (s ++ "")%string = s)
    by (induction s as [|ch s IH]; cbn; [reflexivity|rewrite IH; reflexivity]).
  destruct c as [[who n|who n|to why|who why]|m r s e]; cbn [invoke transit].
  - rewrite acknowledge_run. destruct (truthy n) eqn:Hn; cbn.
    + destruct (notes (this w)) as [[|ch old]|]; cbn; eexists; reflexivity.
    + exists "". rewrite Hnil. reflexivity.
  - rewrite resolve_run. cbn. exists "". rewrite Hnil. reflexivity.
  - rewrite escalate_run. cbn. exists "". rewrite Hnil. reflexivity.
  - rewrite dismiss_run. cbn. exists "". rewrite Hnil. reflexivity.
  - rewrite addNotification_run. cbn. exists "". rewrite Hnil. reflexivity.
Qed.

Lemma append_assoc (s t u : string) : ((s ++ t) ++ u = s ++ (t ++ u))%string.
Proof. induction s as [|ch s IH]; cbn; [reflexivity|rewrite IH; reflexivity]. Qed.

(** X8. The free-text notes only grow: after any sequence of calls the notes
    are the notes before followed by what the acknowledgments added; no call
    erases or rewrites what was noted. *)
Theorem notes_only_grow (cs : list Call) (w : World Alert) :
  exists suffix,
    or_empty (notes (this (snd (invoke_all cs w)))) =
      (or_empty (notes (this w)) ++ suffix)%string.
Proof.
  revert w. induction cs as [|c cs IH]; intros w.
  - exists "". cbn. induction (or_empty (notes (this w))) as [|ch s IHs]; cbn;
      [reflexivity|rewrite <- IHs; reflexivity].
  - rewrite invoke_all_cons. destruct (invoke_notes c w) as [s1 H1].
    destruct (IH (snd (invoke c w))) as [s2 H2].
    exists (s1 ++ s2)%string. rewrite H2, H1. apply append_assoc.
Qed.

(** What no call touches. *)
Lemma invoke_policy (c : Call) (w : World Alert) :
  severity (this (snd (invoke c w))) = severity (this w) /\
  requiresAcknowledgment (this (snd (invoke c w))) = requiresAcknowledgment (this w) /\
  requiresResolution (this (snd (invoke c w))) = requiresResolution (this w) /\
  autoEscalate (this (snd (invoke c w))) = autoEscalate (this w) /\
  escalationDelay (this (snd (invoke c w))) = escalationDelay (this w) /\
  nextEscalationAt (this (snd (invoke c w))) = nextEscalationAt (this w) /\
  createdAt (this (snd (invoke c w))) = createdAt (this w).
Proof.
  destruct c as [[who n|who n|to why|who why]|m r s e]; cbn [invoke transit].
  - rewrite acknowledge_run. destruct (truthy n); cbn; repeat split; reflexivity.
  - rewrite resolve_run. cbn; repeat split; reflexivity.
  - rewrite escalate_run. cbn; repeat split; reflexivity.
  - rewrite dismiss_run. cbn; repeat split; reflexivity.
  - rewrite addNotification_run. cbn; repeat split; reflexivity.
Qed.

(** X9. No sequence of calls changes the alert's policy: severity, the
    acknowledgment and resolution requirements, the auto-escalation flag and
    delay, and the creation time stay as they were.  In particular escalating
    does not lower the severity or reschedule: [nextEscalationAt] is never
    written. *)
Theorem policy_is_never_touched (cs : list Call) (w : World Alert) :
  severity (this (snd (invoke_all cs w))) = severity (this w) /\
  requiresAcknowledgment (this (snd (invoke_all cs w))) = requiresAcknowledgment (this w) /\
  requiresResolution (this (snd (invoke_all cs w))) = requiresResolution (this w) /\
  autoEscalate (this (snd (invoke_all cs w))) = autoEscalate (this w) /\
  escalationDelay (this (snd (invoke_all cs w))) = escalationDelay (this w) /\
  nextEscalationAt (this (snd (invoke_all cs w))) = nextEscalationAt (this w) /\
  createdAt (this (snd (invoke_all cs w))) = createdAt (this w).
Proof.
  revert w. induction cs as [|c cs IH]; intros w.
  - cbn. repeat split; reflexivity.
  - rewrite invoke_all_cons.
    destruct (IH (snd (invoke c w))) as [H1 [H2 [H3 [H4 [H5 [H6 H7]]]]]].
    destruct (invoke_policy c w) as [G1 [G2 [G3 [G4 [G5 [G6 G7]]]]]].
    rewrite H1, H2, H3, H4, H5, H6, H7. repeat split; assumption.
Qed.

End AlertSequences.

(** * Further properties of the tank's methods *)

Section TankQueries.

Import OxygenTank.

Local Open Scope float_scope.

(** The maintenance and expiry answers at the clock readings they use. *)
Lemma getSafetyIssues_run (w : World OxygenTank) :
  getSafetyIssues w =
  (Normal
     (push_if
        (match expirationDate (this w) with
         | Some expires =>
             (expires <=? clock w (match nextMaintenanceDate (this w) with
                                   | Some _ => S (reads w)
                                   | None => reads w
                                   end))%Z
         | None => false
         end) "Tank has expired"
        (push_if
           (match nextMaintenanceDate (this w) with
            | Some due => (due <=? clock w (reads w))%Z
            | None => false
            end) "Tank needs maintenance"
           (push_if (isCritical (this w)) "Tank is in critical condition"
              (push_if (isDamaged (this w)) "Tank is damaged"
                 (push_if (isLeaking (this w)) "Tank is leaking" []))))),
   mkWorld (this w) (clock w)
     (match nextMaintenanceDate (this w), expirationDate (this w) with
      | Some _, Some _ => S (S (reads w))
      | Some _, None | None, Some _ => S (reads w)
      | None, None => reads w
      end)).
Proof.
  unfold getSafetyIssues, needsMaintenance, isExpired, bind, read, ret, new_Date.
  destruct w as [t clk k], t as [? ? ? ? ? ? ? ? ? ? due expires ? ? ? ? ?].
  destruct due, expires; reflexivity.
Qed.

(** X10. [getSafetyIssues] always answers and does not change the tank.  Each
    of its five messages is listed exactly when its condition holds: the tank
    leaks, is damaged, is critical, has a maintenance date that is not after
    the current time, has an expiration date that is not after the current
    time.  A tank without such a date is never due or expired, and the list
    is empty exactly when none of the five conditions holds. *)
Theorem safety_issues_report_their_conditions (w : World OxygenTank) :
  exists issues w',
    getSafetyIssues w = (Normal issues, w') /\
    this w' = this w /\
    (In "Tank is leaking" issues <-> isLeaking (this w) = true) /\
    (In "Tank is damaged" issues <-> isDamaged (this w) = true) /\
    (In "Tank is in critical condition" issues <-> isCritical (this w) = true) /\
    (In "Tank needs maintenance" issues <->
     exists due, nextMaintenanceDate (this w) = Some due /\
                 (due <= clock w (reads w))%Z) /\
    (In "Tank has expired" issues <->
     exists expires, expirationDate (this w) = Some expires /\
                     (expires <= clock w (match nextMaintenanceDate (this w) with
                                          | Some _ => S (reads w)
                                          | None => reads w
                                          end))%Z) /\
    (issues = [] <->
     isLeaking (this w) = false /\ isDamaged (this w) = false /\
     isCritical (this w) = false /\
     (forall due, nextMaintenanceDate (this w) = Some due ->
                  (clock w (reads w) < due)%Z) /\
     (forall expires, expirationDate (this w) = Some expires ->
                      (clock w (match nextMaintenanceDate (this w) with
                                | Some _ => S (reads w)
                                | None => reads w
                                end) < expires)%Z)).
Proof.
  rewrite getSafetyIssues_run. destruct w as [t clk k]. cbn [this clock reads].
  destruct (isLeaking t), (isDamaged t), (isCritical t),
    (nextMaintenanceDate t) as [due|], (expirationDate t) as [expires|];
    try destruct (Z.leb_spec due (clk k));
    try destruct (Z.leb_spec expires (clk (S k)));
    try destruct (Z.leb_spec expires (clk k));
    cbn [push_if app];
    do 2 eexists; (split; [reflexivity|]); (split; [reflexivity|]);
    repeat split; intros;
    repeat match goal with
           | H : In _ _ |- _ => cbn [In] in H
           | H : _ \/ _ |- _ => destruct H
           | H : exists _, _ |- _ => destruct H
           | H : _ /\ _ |- _ => destruct H
           | H : Some _ = Some _ |- _ => injection H as <-
           | H : False |- _ => contradiction
           end;
    try discriminate; try reflexivity; try lia;
    try (cbn [In]; tauto);
    try (eexists; split; [reflexivity|lia]);
    repeat match goal with
           | H : forall d : Date, Some ?x = Some d -> _ |- _ =>
               specialize (H x eq_refl)
           end;
    lia.
Qed.

(** Three facts of IEEE arithmetic the tank's percentages rest on. *)
Lemma nan_leb (x : float) : (nan <=? x) = false.
Proof. rewrite leb_spec. reflexivity. Qed.

Lemma zero_div_zero (l c : float) :
  (c =? 0) = true -> (l =? 0) = true -> l / c = nan.
Proof.
  intros Hc Hl.
  destruct (eqb_zero_inv c Hc) as [sc Ec], (eqb_zero_inv l Hl) as [sl El].
  rewrite <- (SF2Prim_Prim2SF (l / c)), div_spec, Ec, El. reflexivity.
Qed.

Lemma positive_div_zero (l : float) : (0 <? l) = true -> l / 0 = infinity.
Proof.
  intros Hl. rewrite ltb_spec in Hl. change (Prim2SF 0) with (S754_zero false) in Hl.
  rewrite <- (SF2Prim_Prim2SF (l / 0)), div_spec.
  change (Prim2SF 0) with (S754_zero false).
  destruct (Prim2SF l) as [s|s| |s m e]; try discriminate Hl;
    destruct s; try discriminate Hl; reflexivity.
Qed.

Lemma infinity_leb_finite (x : float) : (x <? infinity) = true -> (infinity <=? x) = false.
Proof.
  rewrite ltb_spec, leb_spec. change (Prim2SF infinity) with (S754_infinity false).
  destruct (Prim2SF x) as [s|s| |s m e]; try destruct s; cbn; congruence.
Qed.

(** What a reading writes and what it leaves. *)
Lemma updateReadings_frame (w : World OxygenTank) (l p : float)
    (temp hum : option float) :
  exists w',
    updateReadings l p temp hum w = (Normal tt, w') /\
    currentLevel (this w') = l /\
    currentPressure (this w') = p /\
    fillPercentage (this w') = l / capacity (this w) * 100 /\
    lastReadingAt (this w') = Some (clock w (S (reads w))) /\
    temperature (this w') =
      match temp with Some _ => temp | None => temperature (this w) end /\
    humidity (this w') =
      match hum with Some _ => hum | None => humidity (this w) end /\
    capacity (this w') = capacity (this w) /\
    minPressure (this w') = minPressure (this w) /\
    maxPressure (this w') = maxPressure (this w) /\
    criticalPressure (this w') = criticalPressure (this w) /\
    refillThreshold (this w') = refillThreshold (this w) /\
    dailyUsage (this w') = dailyUsage (this w) /\
    isLeaking (this w') = isLeaking (this w) /\
    isDamaged (this w') = isDamaged (this w) /\
    nextMaintenanceDate (this w') = nextMaintenanceDate (this w) /\
    expirationDate (this w') = expirationDate (this w) /\
    alertSettings (this w') = alertSettings (this w).
Proof.
  rewrite updateReadings_run. eexists. split; [reflexivity|].
  destruct temp, hum; cbn; repeat split; reflexivity.
Qed.

(** X11. A reading replaces the level, the pressure and the fill percentage
    and stamps [lastReadingAt] with the later of the two clock readings it
    takes.  A reading without temperature or humidity keeps the values the
    tank had.  Capacity, pressure bounds, refill threshold, usage, condition
    flags and the maintenance and expiry dates are never changed by a
    reading. *)
Theorem reading_updates_only_the_readings (w : World OxygenTank) (l p : float)
    (temp hum : option float) :
  exists w',
    updateReadings l p temp hum w = (Normal tt, w') /\
    currentLevel (this w') = l /\
    currentPressure (this w') = p /\
    fillPercentage (this w') = l / capacity (this w) * 100 /\
    lastReadingAt (this w') = Some (clock w (S (reads w))) /\
    temperature (this w') =
      match temp with Some _ => temp | None => temperature (this w) end /\
    humidity (this w') =
      match hum with Some _ => hum | None => humidity (this w) end /\
    capacity (this w') = capacity (this w) /\
    minPressure (this w') = minPressure (this w) /\
    maxPressure (this w') = maxPressure (this w) /\
    criticalPressure (this w') = criticalPressure (this w) /\
    refillThreshold (this w') = refillThreshold (this w) /\
    dailyUsage (this w') = dailyUsage (this w) /\
    isLeaking (this w') = isLeaking (this w) /\
    isDamaged (this w') = isDamaged (this w) /\
    nextMaintenanceDate (this w') = nextMaintenanceDate (this w) /\
    expirationDate (this w') = expirationDate (this w) /\
    alertSettings (this w') = alertSettings (this w).
Proof. exact (updateReadings_frame w l p temp hum). Qed.

(** X12. The latest reading wins: after two readings in a row the level, the
    pressure and the fill percentage are those of the second, computed on the
    unchanged capacity; the temperature is the second's, else the first's, else
    the one the tank had. *)
Theorem latest_reading_wins (w : World OxygenTank) (l1 p1 l2 p2 : float)
    (temp1 hum1 temp2 hum2 : option float) :
  exists w',
    (updateReadings l1 p1 temp1 hum1 ;; updateReadings l2 p2 temp2 hum2) w
      = (Normal tt, w') /\
    currentLevel (this w') = l2 /\
    currentPressure (this w') = p2 /\
    fillPercentage (this w') = l2 / capacity (this w) * 100 /\
    needsRefill (this w') = (l2 / capacity (this w) * 100 <=? refillThreshold (this w)) /\
    temperature (this w') =
      match temp2, temp1 with
      | Some _, _ => temp2
      | None, Some _ => temp1
      | None, None => temperature (this w)
      end /\
    lastReadingAt (this w') = Some (clock w (S (S (S (reads w))))).
Proof.
  unfold bind at 1. rewrite updateReadings_run, updateReadings_run. eexists.
  split; [reflexivity|].
  unfold needsRefill. destruct temp1, hum1, temp2, hum2; cbn; repeat split; reflexivity.
Qed.

(** X13. A zero level read on a tank of capacity zero gives a fill
    percentage of NaN, which no comparison finds low: whatever the refill
    threshold the tank does not need a refill, and it is critical only by its
    pressure. *)
Theorem empty_zero_capacity_tank_is_never_low (w : World OxygenTank) (l p : float)
    (temp hum : option float) :
  (capacity (this w) =? 0) = true ->
  (l =? 0) = true ->
  exists w',
    updateReadings l p temp hum w = (Normal tt, w') /\
    fillPercentage (this w') = nan /\
    needsRefill (this w') = false /\
    isCritical (this w') = (p <=? criticalPressure (this w)).
Proof.
  intros Hc Hl. destruct (updateReadings_frame w l p temp hum)
    as (w' & Hrun & _ & Hp & Hfill & _ & _ & _ & _ & _ & _ & Hcrit & Hth & _).
  exists w'. split; [exact Hrun|].
  assert (Hnan : fillPercentage (this w') = nan).
  { rewrite Hfill, (zero_div_zero l (capacity (this w)) Hc Hl). reflexivity. }
  split; [exact Hnan|]. unfold needsRefill, isCritical.
  rewrite Hnan, !nan_leb, Hp, Hcrit, orb_false_r. split; reflexivity.
Qed.

Lemma empty_zero_capacity_tank_is_never_low_example :
  (capacity (this (Scenario.tank 0 20)) =? 0) = true /\
  (0 =? 0) = true /\
  exists w',
    updateReadings 0 2000 None None (Scenario.tank 0 20) = (Normal tt, w') /\
    fillPercentage (this w') = nan /\
    needsRefill (this w') = false /\
    isCritical (this w') = false.
Proof.
  split; [reflexivity|]. split; [reflexivity|].
  apply (empty_zero_capacity_tank_is_never_low (Scenario.tank 0 20) 0 2000 None None);
    reflexivity.
Defined.

(** X14. A positive level read on a tank of capacity zero gives a fill
    percentage of [Infinity]: with a finite refill threshold the tank does not
    need a refill, and it is critical only by its pressure. *)
Theorem filled_zero_capacity_tank_is_never_low (w : World OxygenTank) (l p : float)
    (temp hum : option float) :
  capacity (this w) = 0 ->
  (0 <? l) = true ->
  (refillThreshold (this w) <? infinity) = true ->
  exists w',
    updateReadings l p temp hum w = (Normal tt, w') /\
    fillPercentage (this w') = infinity /\
    needsRefill (this w') = false /\
    isCritical (this w') = (p <=? criticalPressure (this w)).
Proof.
  intros Hc Hl Hth. destruct (updateReadings_frame w l p temp hum)
    as (w' & Hrun & _ & Hp & Hfill & _ & _ & _ & _ & _ & _ & Hcrit & Hth' & _).
  exists w'. split; [exact Hrun|].
  assert (Hinf : fillPercentage (this w') = infinity).
  { rewrite Hfill, Hc, (positive_div_zero l Hl). reflexivity. }
  split; [exact Hinf|]. unfold needsRefill, isCritical.
  rewrite Hinf, Hth', (infinity_leb_finite _ Hth), Hp, Hcrit.
  split; [reflexivity|].
  change (infinity <=? 10) with false. apply orb_false_r.
Qed.

Lemma filled_zero_capacity_tank_is_never_low_example :
  capacity (this (Scenario.tank 0 20)) = 0 /\
  (0 <? 15) = true /\
  (refillThreshold (this (Scenario.tank 0 20)) <? infinity) = true /\
  exists w',
    updateReadings 15 2000 None None (Scenario.tank 0 20) = (Normal tt, w') /\
    fillPercentage (this w') = infinity /\
    needsRefill (this w') = false /\
    isCritical (this w') = false.
Proof.
  repeat (split; [reflexivity|]).
  apply (filled_zero_capacity_tank_is_never_low (Scenario.tank 0 20) 15 2000 None None);
    reflexivity.
Defined.

(** X15. A reading never records usage: [dailyUsage] is left as it was, so a
    tank whose daily usage is zero or negative has an estimated time remaining
    of [Infinity] before the reading and still after it, whatever was read. *)
Theorem estimate_stays_infinite (w : World OxygenTank) (l p : float)
    (temp hum : option float) :
  (dailyUsage (this w) <=? 0) = true ->
  exists w',
    updateReadings l p temp hum w = (Normal tt, w') /\
    getEstimatedTimeRemaining (this w) = infinity /\
    getEstimatedTimeRemaining (this w') = infinity.
Proof.
  intros Hu. destruct (updateReadings_frame w l p temp hum)
    as (w' & Hrun & _ & _ & _ & _ & _ & _ & _ & _ & _ & _ & _ & Husage & _).
  exists w'. split; [exact Hrun|].
  unfold getEstimatedTimeRemaining. rewrite Husage, Hu. split; reflexivity.
Qed.

Lemma estimate_stays_infinite_example :
  (dailyUsage (this (Scenario.tank 100 20)) <=? 0) = true /\
  exists w',
    updateReadings 15 2000 None None (Scenario.tank 100 20) = (Normal tt, w') /\
    getEstimatedTimeRemaining (this (Scenario.tank 100 20)) = infinity /\
    getEstimatedTimeRemaining (this w') = infinity.
Proof.
  split; [reflexivity|].
  apply (estimate_stays_infinite (Scenario.tank 100 20) 15 2000 None None). reflexivity.
Defined.

End TankQueries.

(** * Properties of the tank service *)

Section TankService.

Import OxygenTankService.

Local Open Scope float_scope.

Lemma find_app_some {A} (f : A -> bool) (l m : list A) (x : A) :
  find f l = Some x -> find f (l ++ m) = Some x.
Proof.
  induction l as [|y l IH]; cbn; [discriminate|].
  destruct (f y); [trivial|exact IH].
Qed.

Lemma find_app_none {A} (f : A -> bool) (l m : list A) :
  find f l = None -> find f (l ++ m) = find f m.
Proof.
  induction l as [|y l IH]; cbn; [reflexivity|].
  destruct (f y); [discriminate|exact IH].
Qed.

(** A row matches a [where] exactly when it agrees on the three columns. *)
Lemma matches_true (tankId : string) (ty : AlertType) (st : Alert.AlertStatus)
    (a : AlertRow.Alert) :
  matches tankId ty st a = true <->
  AlertRow.tankId a = tankId /\ AlertRow.type a = ty /\ AlertRow.status a = st.
Proof.
  unfold matches. rewrite !andb_true_iff, String.eqb_eq.
  destruct (AlertType_eq_dec (AlertRow.type a) ty) as [Hty|Hty];
    destruct (AlertRow.status a), st; cbn; intuition congruence.
Qed.

(** No alert is found exactly when no row of the table is an Active alert of
    the type for the tank. *)
Lemma none_open (tankId : string) (ty : AlertType) (alerts : list AlertRow.Alert) :
  find (matches tankId ty Alert.ACTIVE) alerts = None <->
  (forall a, In a alerts -> AlertRow.tankId a = tankId -> AlertRow.type a = ty ->
             AlertRow.status a <> Alert.ACTIVE).
Proof.
  split.
  - intros Hnone a Hin Hid Hty Hst.
    pose proof (find_none _ _ Hnone a Hin) as Hf.
    assert (Ht : matches tankId ty Alert.ACTIVE a = true) by (apply matches_true; auto).
    congruence.
  - intros Hall. destruct (find (matches tankId ty Alert.ACTIVE) alerts) as [a|] eqn:Hf;
      [|reflexivity].
    apply find_some in Hf as [Hin Hm]. apply matches_true in Hm as [Hid [Hty Hst]].
    exfalso. exact (Hall a Hin Hid Hty Hst).
Qed.

(** The lookup of an open alert and the creation that follows it when there is
    none: the common end of the three checks. *)
Lemma lookup_then_create (tankId : string) (ty : AlertType)
    (draft : Date -> AlertRow.Alert) (w : World Repositories) :
  (existingAlert <- findOne_alert tankId ty Alert.ACTIVE ;;
   match existingAlert with
   | Some _ => ret tt
   | None => now <- new_Date ;; save_alert (draft now)
   end) w =
  opens true tankId ty (draft (clock w (reads w))) w.
Proof.
  unfold opens, bind, findOne_alert, read, ret, new_Date, save_alert, assign. cbn.
  destruct (find (matches tankId ty Alert.ACTIVE) (alertRepository (this w)));
    reflexivity.
Qed.

Lemma opens_false (tankId : string) (ty : AlertType) (a : AlertRow.Alert)
    (w : World Repositories) :
  opens false tankId ty a w = (Normal tt, w).
Proof. reflexivity. Qed.

(** The three checks as outcomes. *)
Lemma checkLowLevelAlert_run (th : float) (tank : TankRow.Tank) (w : World Repositories) :
  exists a,
    (AlertRow.type a = TANK_LOW_LEVEL /\ AlertRow.category a = TANK_MONITORING /\
     AlertRow.severity a = Alert.HIGH /\ AlertRow.status a = Alert.ACTIVE /\
     AlertRow.tankId a = TankRow.id tank /\
     timestamp (AlertRow.sensorData a) = clock w (reads w)) /\
    checkLowLevelAlert th tank w =
    opens (OxygenTank.fillPercentage (TankRow.entity tank) <=? th)
      (TankRow.id tank) TANK_LOW_LEVEL a w.
Proof.
  unfold checkLowLevelAlert. eexists. split; cycle 1.
  - destruct (_ <=? th); [rewrite lookup_then_create|]; reflexivity.
  - repeat split; reflexivity.
Qed.

Lemma checkPressureAlert_run (tank : TankRow.Tank) (w : World Repositories) :
  exists a,
    (AlertRow.type a =
       (if OxygenTank.currentPressure (TankRow.entity tank)
             <? OxygenTank.minPressure (TankRow.entity tank)
        then TANK_LOW_PRESSURE else TANK_HIGH_PRESSURE) /\
     AlertRow.category a = TANK_MONITORING /\
     AlertRow.severity a =
       (if OxygenTank.currentPressure (TankRow.entity tank)
             <? OxygenTank.minPressure (TankRow.entity tank)
        then Alert.HIGH else Alert.MEDIUM) /\
     AlertRow.status a = Alert.ACTIVE /\
     AlertRow.tankId a = TankRow.id tank /\
     timestamp (AlertRow.sensorData a) = clock w (reads w)) /\
    checkPressureAlert tank w =
    opens
      ((OxygenTank.currentPressure (TankRow.entity tank)
          <? OxygenTank.minPressure (TankRow.entity tank)) ||
       (OxygenTank.maxPressure (TankRow.entity tank)
          <? OxygenTank.currentPressure (TankRow.entity tank)))
      (TankRow.id tank)
      (if OxygenTank.currentPressure (TankRow.entity tank)
            <? OxygenTank.minPressure (TankRow.entity tank)
       then TANK_LOW_PRESSURE else TANK_HIGH_PRESSURE) a w.
Proof.
  unfold checkPressureAlert. cbv zeta. eexists. split; cycle 1.
  - destruct (_ || _); [rewrite lookup_then_create|]; reflexivity.
  - repeat split; reflexivity.
Qed.

Lemma checkTemperatureAlert_run (tank : TankRow.Tank) (w : World Repositories) :
  exists a,
    (AlertRow.type a = ENVIRONMENTAL_HAZARD /\ AlertRow.category a = SAFETY /\
     AlertRow.severity a = Alert.MEDIUM /\ AlertRow.status a = Alert.ACTIVE /\
     AlertRow.tankId a = TankRow.id tank /\
     timestamp (AlertRow.sensorData a) = clock w (reads w)) /\
    checkTemperatureAlert tank w =
    opens
      (match OxygenTank.temperature (TankRow.entity tank) with
       | Some t => (t <? -20) || (50 <? t)
       | None => false
       end)
      (TankRow.id tank) ENVIRONMENTAL_HAZARD a w.
Proof.
  unfold checkTemperatureAlert.
  destruct (OxygenTank.temperature (TankRow.entity tank)) as [t|].
  - cbv zeta. eexists. split; cycle 1.
    + destruct (_ || _); [rewrite lookup_then_create|]; reflexivity.
    + repeat split; reflexivity.
  - exists {| AlertRow.title := ""; AlertRow.type := ENVIRONMENTAL_HAZARD;
              AlertRow.category := SAFETY; AlertRow.severity := Alert.MEDIUM;
              AlertRow.status := Alert.ACTIVE; AlertRow.tankId := TankRow.id tank;
              AlertRow.source := ""; AlertRow.location := "";
              AlertRow.metadata := TemperatureData 0 0 0;
              AlertRow.sensorData :=
                {| pressure := None; level := None; temperature := None;
                   timestamp := clock w (reads w) |} |}.
    split; [repeat split; reflexivity|reflexivity].
Qed.

(** The outcome of a check, by cases. *)
Lemma opens_cases (due : bool) (tankId : string) (ty : AlertType) (a : AlertRow.Alert)
    (w : World Repositories) :
  exists w',
    opens due tankId ty a w = (Normal tt, w') /\
    tankRepository (this w') = tankRepository (this w) /\
    (due = true ->
     (forall x, In x (alertRepository (this w)) -> AlertRow.tankId x = tankId ->
                AlertRow.type x = ty -> AlertRow.status x <> Alert.ACTIVE) ->
     alertRepository (this w') = (alertRepository (this w) ++ [a])%list) /\
    (due = false -> w' = w) /\
    (forall x, In x (alertRepository (this w)) -> AlertRow.tankId x = tankId ->
               AlertRow.type x = ty -> AlertRow.status x = Alert.ACTIVE -> w' = w).
Proof.
  unfold opens. destruct due.
  - destruct (find (matches tankId ty Alert.ACTIVE) (alertRepository (this w)))
      as [x|] eqn:Hfind.
    + eexists. split; [reflexivity|]. split; [reflexivity|]. split; [|split].
      * intros _ Hnone. apply none_open in Hnone. congruence.
      * reflexivity.
      * reflexivity.
    + eexists. split; [reflexivity|]. split; [reflexivity|]. split; [|split].
      * reflexivity.
      * discriminate.
      * intros x Hin Hid Hty Hst. exfalso.
        exact (proj1 (none_open tankId ty _) Hfind x Hin Hid Hty Hst).
  - eexists. split; [reflexivity|]. split; [reflexivity|]. split; [discriminate|].
    split; trivial.
Qed.

(** X16. [checkLowLevelAlert] compares the tank's fill percentage with the
    configured alert threshold (the tank's own refill threshold plays no part).
    Above the threshold, or with an Active low-level alert already on record
    for the tank, it changes nothing.  At or below the threshold, when no
    low-level alert of the tank is Active (alerts that were acknowledged,
    escalated, resolved or dismissed do not count), it appends exactly one
    alert: low level, tank monitoring, severity High, Active, for this tank,
    stamped with the current time. *)
Theorem low_level_alert_is_opened_once (th : float) (tank : TankRow.Tank)
    (w : World Repositories) :
  exists w',
    checkLowLevelAlert th tank w = (Normal tt, w') /\
    tankRepository (this w') = tankRepository (this w) /\
    ((OxygenTank.fillPercentage (TankRow.entity tank) <=? th) = true ->
     (forall x, In x (alertRepository (this w)) ->
                AlertRow.tankId x = TankRow.id tank ->
                AlertRow.type x = TANK_LOW_LEVEL -> AlertRow.status x <> Alert.ACTIVE) ->
     exists a,
       alertRepository (this w') = (alertRepository (this w) ++ [a])%list /\
       AlertRow.type a = TANK_LOW_LEVEL /\ AlertRow.category a = TANK_MONITORING /\
       AlertRow.severity a = Alert.HIGH /\ AlertRow.status a = Alert.ACTIVE /\
       AlertRow.tankId a = TankRow.id tank /\
       timestamp (AlertRow.sensorData a) = clock w (reads w)) /\
    ((OxygenTank.fillPercentage (TankRow.entity tank) <=? th) = false -> w' = w) /\
    (forall x, In x (alertRepository (this w)) ->
               AlertRow.tankId x = TankRow.id tank ->
               AlertRow.type x = TANK_LOW_LEVEL ->
               AlertRow.status x = Alert.ACTIVE -> w' = w).
Proof.
  destruct (checkLowLevelAlert_run th tank w) as [a [Hfacts Hrun]].
  destruct (opens_cases (OxygenTank.fillPercentage (TankRow.entity tank) <=? th)
              (TankRow.id tank) TANK_LOW_LEVEL a w)
    as (w' & Hopens & Htanks & Hnew & Hquiet & Hdup).
  exists w'. rewrite Hrun. split; [exact Hopens|]. split; [exact Htanks|].
  split; [|split; assumption].
  intros Hdue Hnone. exists a. split; [exact (Hnew Hdue Hnone)|]. exact Hfacts.
Qed.

(** X17. [checkPressureAlert] changes nothing while the pressure is within
    [minPressure, maxPressure], bounds included; a NaN pressure is within
    them for this purpose.  Below the minimum it opens a low-pressure alert of
    severity High, above the maximum (and not below the minimum) a
    high-pressure alert of severity Medium: one alert at most, Active, for this
    tank, and none when an Active alert of that type is on record for the
    tank. *)
Theorem pressure_alert_is_opened_once (tank : TankRow.Tank) (w : World Repositories) :
  exists w',
    checkPressureAlert tank w = (Normal tt, w') /\
    tankRepository (this w') = tankRepository (this w) /\
    (forall ty sev,
       ((OxygenTank.currentPressure (TankRow.entity tank)
           <? OxygenTank.minPressure (TankRow.entity tank)) = true /\
        ty = TANK_LOW_PRESSURE /\ sev = Alert.HIGH) \/
       ((OxygenTank.currentPressure (TankRow.entity tank)
           <? OxygenTank.minPressure (TankRow.entity tank)) = false /\
        (OxygenTank.maxPressure (TankRow.entity tank)
           <? OxygenTank.currentPressure (TankRow.entity tank)) = true /\
        ty = TANK_HIGH_PRESSURE /\ sev = Alert.MEDIUM) ->
       ((forall x, In x (alertRepository (this w)) ->
                   AlertRow.tankId x = TankRow.id tank ->
                   AlertRow.type x = ty -> AlertRow.status x <> Alert.ACTIVE) ->
        exists a,
          alertRepository (this w') = (alertRepository (this w) ++ [a])%list /\
          AlertRow.type a = ty /\ AlertRow.category a = TANK_MONITORING /\
          AlertRow.severity a = sev /\ AlertRow.status a = Alert.ACTIVE /\
          AlertRow.tankId a = TankRow.id tank /\
          timestamp (AlertRow.sensorData a) = clock w (reads w)) /\
       (forall x, In x (alertRepository (this w)) ->
                  AlertRow.tankId x = TankRow.id tank ->
                  AlertRow.type x = ty -> AlertRow.status x = Alert.ACTIVE -> w' = w)) /\
    ((OxygenTank.currentPressure (TankRow.entity tank)
        <? OxygenTank.minPressure (TankRow.entity tank)) = false ->
     (OxygenTank.maxPressure (TankRow.entity tank)
        <? OxygenTank.currentPressure (TankRow.entity tank)) = false -> w' = w) /\
    (OxygenTank.currentPressure (TankRow.entity tank) = nan -> w' = w).
Proof.
  destruct (checkPressureAlert_run tank w) as [a [Hfacts Hrun]].
  set (p := OxygenTank.currentPressure (TankRow.entity tank)) in *.
  set (lo := OxygenTank.minPressure (TankRow.entity tank)) in *.
  set (hi := OxygenTank.maxPressure (TankRow.entity tank)) in *.
  destruct (opens_cases ((p <? lo) || (hi <? p)) (TankRow.id tank)
              (if p <? lo then TANK_LOW_PRESSURE else TANK_HIGH_PRESSURE) a w)
    as (w' & Hopens & Htanks & Hnew & Hquiet & Hdup).
  exists w'. rewrite Hrun. split; [exact Hopens|]. split; [exact Htanks|].
  split; [|split].
  - intros ty sev [(Hlow & -> & ->)|(Hlow & Hhigh & -> & ->)];
      rewrite Hlow in *; cbn [orb] in *; (split; [|exact Hdup]);
      intros Hnone; exists a; (split; [apply Hnew; [|exact Hnone]|exact Hfacts]);
      [reflexivity|exact Hhigh].
  - intros Hlow Hhigh. apply Hquiet. rewrite Hlow, Hhigh. reflexivity.
  - intros Hnan. apply Hquiet.
    assert (Hl : (nan <? lo) = false) by (rewrite ltb_spec; reflexivity).
    assert (Hh : (hi <? nan) = false).
    { rewrite ltb_spec. change (Prim2SF nan) with S754_nan.
      destruct (Prim2SF hi) as [s|s| |s m e]; try destruct s; reflexivity. }
    rewrite Hnan, Hl, Hh. reflexivity.
Qed.

(** X18. [checkTemperatureAlert] changes nothing for a tank without a
    temperature, for a temperature within [-20, 50], bounds included, and for a
    NaN.  Below -20 or above 50 it opens one environmental-hazard alert of
    category Safety and severity Medium, Active, for this tank, unless an
    Active one is on record for the tank. *)
Theorem temperature_alert_is_opened_once (tank : TankRow.Tank) (w : World Repositories) :
  exists w',
    checkTemperatureAlert tank w = (Normal tt, w') /\
    tankRepository (this w') = tankRepository (this w) /\
    (forall t, OxygenTank.temperature (TankRow.entity tank) = Some t ->
               (t <? -20) = true \/ (50 <? t) = true ->
               (forall x, In x (alertRepository (this w)) ->
                          AlertRow.tankId x = TankRow.id tank ->
                          AlertRow.type x = ENVIRONMENTAL_HAZARD ->
                          AlertRow.status x <> Alert.ACTIVE) ->
     exists a,
       alertRepository (this w') = (alertRepository (this w) ++ [a])%list /\
       AlertRow.type a = ENVIRONMENTAL_HAZARD /\ AlertRow.category a = SAFETY /\
       AlertRow.severity a = Alert.MEDIUM /\ AlertRow.status a = Alert.ACTIVE /\
       AlertRow.tankId a = TankRow.id tank /\
       timestamp (AlertRow.sensorData a) = clock w (reads w)) /\
    (OxygenTank.temperature (TankRow.entity tank) = None -> w' = w) /\
    (forall t, OxygenTank.temperature (TankRow.entity tank) = Some t ->
               (t <? -20) = false -> (50 <? t) = false -> w' = w) /\
    (OxygenTank.temperature (TankRow.entity tank) = Some nan -> w' = w) /\
    (OxygenTank.temperature (TankRow.entity tank) = Some (-20) -> w' = w) /\
    (OxygenTank.temperature (TankRow.entity tank) = Some 50 -> w' = w) /\
    (forall x, In x (alertRepository (this w)) ->
               AlertRow.tankId x = TankRow.id tank ->
               AlertRow.type x = ENVIRONMENTAL_HAZARD ->
               AlertRow.status x = Alert.ACTIVE -> w' = w).
Proof.
  destruct (checkTemperatureAlert_run tank w) as [a [Hfacts Hrun]].
  destruct (opens_cases
              (match OxygenTank.temperature (TankRow.entity tank) with
               | Some t => (t <? -20) || (50 <? t)
               | None => false
               end) (TankRow.id tank) ENVIRONMENTAL_HAZARD a w)
    as (w' & Hopens & Htanks & Hnew & Hquiet & Hdup).
  exists w'. rewrite Hrun. split; [exact Hopens|]. split; [exact Htanks|].
  split; [|repeat split].
  - intros t Ht Hout Hnone. exists a. split; [|exact Hfacts].
    apply Hnew; [|exact Hnone]. rewrite Ht. apply orb_true_iff. exact Hout.
  - intros Ht. apply Hquiet. rewrite Ht. reflexivity.
  - intros t Ht Hlow Hhigh. apply Hquiet. rewrite Ht, Hlow, Hhigh. reflexivity.
  - intros Ht. apply Hquiet. rewrite Ht. reflexivity.
  - intros Ht. apply Hquiet. rewrite Ht. reflexivity.
  - intros Ht. apply Hquiet. rewrite Ht. reflexivity.
  - exact Hdup.
Qed.

(** A check completes, keeps the tanks table and the clock, and appends at
    most the alert it drafted. *)
Lemma opens_appends (due : bool) (tankId : string) (ty : AlertType) (a : AlertRow.Alert)
    (w : World Repositories) :
  opens due tankId ty a w = (Normal tt, snd (opens due tankId ty a w)) /\
  tankRepository (this (snd (opens due tankId ty a w))) = tankRepository (this w) /\
  clock (snd (opens due tankId ty a w)) = clock w /\
  exists new,
    alertRepository (this (snd (opens due tankId ty a w))) =
      (alertRepository (this w) ++ new)%list /\
    (new = [] \/ new = [a]).
Proof.
  unfold opens. destruct due;
    [destruct (find (matches tankId ty Alert.ACTIVE) (alertRepository (this w)))|];
    cbn; repeat split;
    solve [exists []; rewrite app_nil_r; auto | exists [a]; auto].
Qed.

(** Once a check has run, the same check finds its alert on record (or has no
    reason to open one), also after further alerts were appended. *)
Lemma opens_settled (due : bool) (tankId : string) (ty : AlertType)
    (a a' : AlertRow.Alert) (w w2 : World Repositories) (more : list AlertRow.Alert) :
  matches tankId ty Alert.ACTIVE a = true ->
  alertRepository (this w2) =
    (alertRepository (this (snd (opens due tankId ty a w))) ++ more)%list ->
  opens due tankId ty a' w2 = (Normal tt, w2).
Proof.
  intros Ha Hw2. unfold opens in *. destruct due; [|reflexivity].
  destruct (find (matches tankId ty Alert.ACTIVE) (alertRepository (this w)))
    as [x|] eqn:Hfind; cbn in Hw2; rewrite Hw2.
  - rewrite (find_app_some _ _ more x Hfind). reflexivity.
  - rewrite <- app_assoc, (find_app_none _ _ _ Hfind). cbn. rewrite Ha. reflexivity.
Qed.

(** Applying a reading to a loaded tank and setting the reading's timestamp. *)
Lemma on_tank_updateReadings (reading : TankReading.TankReading) (tank : TankRow.Tank)
    (w : World Repositories) :
  exists updated,
    on_tank tank
      (OxygenTank.updateReadings (TankReading.currentLevel reading)
         (TankReading.currentPressure reading) (TankReading.temperature reading)
         (TankReading.humidity reading)) w =
    (Normal updated, mkWorld (this w) (clock w) (S (S (reads w)))) /\
    with_lastReadingAt (TankReading.timestamp reading) (snd updated) =
      reading_applied reading tank.
Proof.
  unfold on_tank. rewrite updateReadings_run. eexists. split; [reflexivity|].
  unfold with_lastReadingAt, reading_applied. cbn [snd TankRow.id TankRow.tankNumber
    TankRow.location TankRow.pressureUnit TankRow.entity this]. f_equal.
  destruct (TankRow.entity tank), (TankReading.temperature reading),
    (TankReading.humidity reading); vm_compute; reflexivity.
Qed.

(** A second application of the same reading changes nothing more. *)
Lemma reading_applied_twice (reading : TankReading.TankReading) (tank : TankRow.Tank) :
  reading_applied reading (reading_applied reading tank) = reading_applied reading tank.
Proof.
  unfold reading_applied. cbn [TankRow.id TankRow.tankNumber TankRow.location
    TankRow.pressureUnit TankRow.entity]. f_equal.
  destruct (TankRow.entity tank), (TankReading.temperature reading),
    (TankReading.humidity reading); vm_compute; reflexivity.
Qed.

(** Saving a tank that was found under its number: it is found again, as
    saved, and saving it again changes nothing. *)
Lemma find_saved (number : string) (tank found : TankRow.Tank) (rows : list TankRow.Tank) :
  find (fun t => (TankRow.tankNumber t =? number)%string) rows = Some found ->
  TankRow.id tank = TankRow.id found ->
  TankRow.tankNumber tank = number ->
  find (fun t => (TankRow.tankNumber t =? number)%string) (saved tank rows) = Some tank.
Proof.
  intros Hfind Hid Hnumber. unfold saved.
  assert (Hex : existsb (fun t => (TankRow.id t =? TankRow.id tank)%string) rows = true).
  { apply existsb_exists. exists found. apply find_some in Hfind as [Hin _].
    split; [exact Hin|]. apply String.eqb_eq. congruence. }
  rewrite Hex. clear Hex. induction rows as [|r rows IH]; [discriminate|].
  cbn [find map] in Hfind |- *.
  destruct (TankRow.id r =? TankRow.id tank)%string eqn:Hr.
  - rewrite Hnumber, String.eqb_refl. reflexivity.
  - destruct (TankRow.tankNumber r =? number)%string eqn:Hn.
    + injection Hfind as ->. apply String.eqb_neq in Hr. congruence.
    + apply IH. exact Hfind.
Qed.

Lemma saved_twice (tank : TankRow.Tank) (rows : list TankRow.Tank) :
  saved tank (saved tank rows) = saved tank rows.
Proof.
  assert (Hmap : forall rows,
             map (fun t => if (TankRow.id t =? TankRow.id tank)%string then tank else t)
               (map (fun t => if (TankRow.id t =? TankRow.id tank)%string then tank else t)
                  rows) =
             map (fun t => if (TankRow.id t =? TankRow.id tank)%string then tank else t)
               rows).
  { clear. intros rows. rewrite map_map. apply map_ext. intros t.
    destruct (TankRow.id t =? TankRow.id tank)%string eqn:Ht;
      [rewrite String.eqb_refl|rewrite Ht]; reflexivity. }
  unfold saved.
  destruct (existsb (fun t => (TankRow.id t =? TankRow.id tank)%string) rows) eqn:Hex.
  - assert (Hex' : existsb (fun t => (TankRow.id t =? TankRow.id tank)%string)
                     (map (fun t => if (TankRow.id t =? TankRow.id tank)%string
                                    then tank else t) rows) = true).
    { apply existsb_exists in Hex as [x [Hin Hx]]. apply existsb_exists.
      exists tank. split; [|apply String.eqb_refl].
      apply in_map_iff. exists x. rewrite Hx. auto. }
    rewrite Hex'. apply Hmap.
  - rewrite existsb_app. cbn [existsb]. rewrite String.eqb_refl, orb_true_r.
    rewrite map_app. cbn [map]. rewrite String.eqb_refl. f_equal.
    rewrite <- (map_id rows) at 2. apply map_ext_in. intros t Hin.
    destruct (TankRow.id t =? TankRow.id tank)%string eqn:Ht; [|reflexivity].
    assert (Hcontra : existsb (fun t => (TankRow.id t =? TankRow.id tank)%string) rows = true)
      by (apply existsb_exists; eauto).
    congruence.
Qed.

(** Each check completes, keeps the tanks and the clock and appends at most
    one alert, which is an Active alert of this tank. *)
Lemma checks_append (th : float) (tank : TankRow.Tank) (w : World Repositories)
    (check : World Repositories -> Completion unit * World Repositories) :
  check = checkLowLevelAlert th tank \/ check = checkPressureAlert tank \/
  check = checkTemperatureAlert tank ->
  check w = (Normal tt, snd (check w)) /\
  tankRepository (this (snd (check w))) = tankRepository (this w) /\
  clock (snd (check w)) = clock w /\
  exists new,
    alertRepository (this (snd (check w))) = (alertRepository (this w) ++ new)%list /\
    (List.length new <= 1)%nat /\
    (forall a, In a new ->
       AlertRow.tankId a = TankRow.id tank /\ AlertRow.status a = Alert.ACTIVE).
Proof.
  assert (Hopens : forall due ty a,
             AlertRow.tankId a = TankRow.id tank /\ AlertRow.status a = Alert.ACTIVE ->
             opens due (TankRow.id tank) ty a w =
               (Normal tt, snd (opens due (TankRow.id tank) ty a w)) /\
             tankRepository (this (snd (opens due (TankRow.id tank) ty a w))) =
               tankRepository (this w) /\
             clock (snd (opens due (TankRow.id tank) ty a w)) = clock w /\
             exists new,
               alertRepository (this (snd (opens due (TankRow.id tank) ty a w))) =
                 (alertRepository (this w) ++ new)%list /\
               (List.length new <= 1)%nat /\
               (forall x, In x new ->
                  AlertRow.tankId x = TankRow.id tank /\
                  AlertRow.status x = Alert.ACTIVE)).
  { intros due ty a Ha.
    destruct (opens_appends due (TankRow.id tank) ty a w)
      as (Hrun & Htanks & Hclock & new & Hnew & Hcases).
    repeat (split; [assumption|]). exists new. split; [exact Hnew|].
    destruct Hcases as [-> | ->]; cbn; (split; [lia|]).
    - intros x [].
    - intros x [<-|[]]. exact Ha. }
  intros [-> | [-> | ->]].
  - destruct (checkLowLevelAlert_run th tank w) as [a [Hfacts ->]].
    apply Hopens. tauto.
  - destruct (checkPressureAlert_run tank w) as [a [Hfacts ->]].
    apply Hopens. tauto.
  - destruct (checkTemperatureAlert_run tank w) as [a [Hfacts ->]].
    apply Hopens. tauto.
Qed.

(** Each check, run again on what it left (possibly with more alerts appended),
    changes nothing. *)
Lemma checks_settle (th : float) (tank : TankRow.Tank) (w w2 : World Repositories)
    (more : list AlertRow.Alert)
    (check : World Repositories -> Completion unit * World Repositories) :
  check = checkLowLevelAlert th tank \/ check = checkPressureAlert tank \/
  check = checkTemperatureAlert tank ->
  alertRepository (this w2) = (alertRepository (this (snd (check w))) ++ more)%list ->
  check w2 = (Normal tt, w2).
Proof.
  intros [-> | [-> | ->]].
  - destruct (checkLowLevelAlert_run th tank w) as [a [Ha ->]].
    destruct (checkLowLevelAlert_run th tank w2) as [a2 [_ ->]].
    apply opens_settled. apply matches_true. tauto.
  - destruct (checkPressureAlert_run tank w) as [a [Ha ->]].
    destruct (checkPressureAlert_run tank w2) as [a2 [_ ->]].
    apply opens_settled. apply matches_true. tauto.
  - destruct (checkTemperatureAlert_run tank w) as [a [Ha ->]].
    destruct (checkTemperatureAlert_run tank w2) as [a2 [_ ->]].
    apply opens_settled. apply matches_true. tauto.
Qed.

(** [updateTankReadings] on a tank that is found: the reading is applied, the
    three checks run in order, the tank is saved. *)
Lemma updateTankReadings_found (th : float) (reading : TankReading.TankReading)
    (w : World Repositories) (found : TankRow.Tank) :
  find (fun t => (TankRow.tankNumber t =? TankReading.tankNumber reading)%string)
    (tankRepository (this w)) = Some found ->
  let T := reading_applied reading found in
  let w1 := snd (checkLowLevelAlert th T (mkWorld (this w) (clock w) (S (S (reads w))))) in
  let w2 := snd (checkPressureAlert T w1) in
  let w3 := snd (checkTemperatureAlert T w2) in
  updateTankReadings th reading w =
  (Normal T,
   mkWorld
     {| tankRepository := saved T (tankRepository (this w));
        alertRepository := alertRepository (this w3) |}
     (clock w) (reads w3)).
Proof.
  intros Hfind. cbv zeta.
  set (T := reading_applied reading found).
  set (w0 := mkWorld (this w) (clock w) (S (S (reads w)))).
  destruct (checks_append th T w0 (checkLowLevelAlert th T)) as (H1 & T1 & C1 & _); [auto|].
  set (w1 := snd (checkLowLevelAlert th T w0)) in *.
  destruct (checks_append th T w1 (checkPressureAlert T)) as (H2 & T2 & C2 & _); [auto|].
  set (w2 := snd (checkPressureAlert T w1)) in *.
  destruct (checks_append th T w2 (checkTemperatureAlert T)) as (H3 & T3 & C3 & _); [auto|].
  set (w3 := snd (checkTemperatureAlert T w2)) in *.
  destruct (on_tank_updateReadings reading found w) as [updated [Hon Happlied]].
  unfold updateTankReadings, getTankByTankNumber, findOne_tank, try_catch.
  unfold bind at 1. unfold read. rewrite Hfind.
  unfold bind at 1. rewrite Hon. rewrite Happlied. fold T. fold w0.
  unfold bind at 1. rewrite H1.
  unfold bind at 1. rewrite H2.
  unfold bind at 1. rewrite H3.
  unfold save_tank, bind, assign, ret, saved. cbn [this clock reads].
  rewrite T3, T2, T1, C3, C2, C1. reflexivity.
Qed.

(** [updateTankReadings] for a number no tank carries. *)
Lemma updateTankReadings_not_found (th : float) (reading : TankReading.TankReading)
    (w : World Repositories) :
  find (fun t => (TankRow.tankNumber t =? TankReading.tankNumber reading)%string)
    (tankRepository (this w)) = None ->
  updateTankReadings th reading w =
    (Throw (Error "Failed to update tank readings"), w).
Proof.
  intros Hfind.
  unfold updateTankReadings, getTankByTankNumber, findOne_tank, try_catch.
  unfold bind at 1. unfold read. rewrite Hfind. reflexivity.
Qed.

(** X19. A reading for a tank number that no tank carries is refused: the
    call throws [Error: Failed to update tank readings] (the "Tank not found"
    raised inside is caught and replaced), reads no clock and leaves both
    tables as they were. *)
Theorem reading_for_unknown_tank_is_refused (th : float)
    (reading : TankReading.TankReading) (w : World Repositories) :
  (forall t, In t (tankRepository (this w)) ->
             TankRow.tankNumber t <> TankReading.tankNumber reading) ->
  updateTankReadings th reading w =
    (Throw (Error "Failed to update tank readings"), w).
Proof.
  intros Hnone. apply updateTankReadings_not_found.
  destruct (find _ (tankRepository (this w))) as [t|] eqn:Hfind; [|reflexivity].
  apply find_some in Hfind as [Hin Hnumber]. apply String.eqb_eq in Hnumber.
  exfalso. exact (Hnone t Hin Hnumber).
Qed.

Lemma reading_for_unknown_tank_is_refused_on_ward :
  updateTankReadings 20 (Scenario.reading_for "TK-9") Scenario.ward =
    (Throw "Error: Failed to update tank readings", Scenario.ward).
Proof.
  apply (reading_for_unknown_tank_is_refused 20 (Scenario.reading_for "TK-9")
           Scenario.ward).
  intros t [<-|[]]. discriminate.
Defined.

(** X20. A reading for a known tank is applied and saved.  The call returns
    the tank with the level and pressure read, the fill percentage computed on
    its capacity, and [lastReadingAt] set to the reading's own timestamp, not
    to the clock.  The rows of the tank's id are replaced by it and the other
    rows are kept.  The alerts on record are kept and at most three are
    appended, each an Active alert of this tank. *)
Theorem reading_for_known_tank_is_saved (th : float)
    (reading : TankReading.TankReading) (w : World Repositories)
    (found : TankRow.Tank) :
  find (fun t => (TankRow.tankNumber t =? TankReading.tankNumber reading)%string)
    (tankRepository (this w)) = Some found ->
  exists tank w',
    updateTankReadings th reading w = (Normal tank, w') /\
    TankRow.id tank = TankRow.id found /\
    TankRow.tankNumber tank = TankReading.tankNumber reading /\
    OxygenTank.currentLevel (TankRow.entity tank) = TankReading.currentLevel reading /\
    OxygenTank.currentPressure (TankRow.entity tank) =
      TankReading.currentPressure reading /\
    OxygenTank.fillPercentage (TankRow.entity tank) =
      TankReading.currentLevel reading / OxygenTank.capacity (TankRow.entity found) * 100 /\
    OxygenTank.lastReadingAt (TankRow.entity tank) =
      Some (TankReading.timestamp reading) /\
    tankRepository (this w') =
      map (fun t => if (TankRow.id t =? TankRow.id found)%string then tank else t)
        (tankRepository (this w)) /\
    In tank (tankRepository (this w')) /\
    exists new,
      alertRepository (this w') = (alertRepository (this w) ++ new)%list /\
      (List.length new <= 3)%nat /\
      (forall a, In a new ->
         AlertRow.tankId a = TankRow.id found /\ AlertRow.status a = Alert.ACTIVE).
Proof.
  intros Hfind. rewrite (updateTankReadings_found th reading w found Hfind). cbv zeta.
  set (T := reading_applied reading found).
  set (w0 := mkWorld (this w) (clock w) (S (S (reads w)))).
  destruct (checks_append th T w0 (checkLowLevelAlert th T))
    as (_ & _ & _ & n1 & A1 & L1 & F1); [auto|].
  set (w1 := snd (checkLowLevelAlert th T w0)) in *.
  destruct (checks_append th T w1 (checkPressureAlert T))
    as (_ & _ & _ & n2 & A2 & L2 & F2); [auto|].
  set (w2 := snd (checkPressureAlert T w1)) in *.
  destruct (checks_append th T w2 (checkTemperatureAlert T))
    as (_ & _ & _ & n3 & A3 & L3 & F3); [auto|].
  set (w3 := snd (checkTemperatureAlert T w2)) in *.
  pose proof (find_some _ _ Hfind) as [Hin Hnumber]. apply String.eqb_eq in Hnumber.
  assert (Hex : existsb (fun t => (TankRow.id t =? TankRow.id T)%string)
                  (tankRepository (this w)) = true).
  { apply existsb_exists. exists found. split; [exact Hin|]. apply String.eqb_refl. }
  do 2 eexists. split; [reflexivity|]. cbn [this].
  split; [reflexivity|]. split; [exact Hnumber|].
  assert (Hfields :
            OxygenTank.currentLevel (TankRow.entity T) = TankReading.currentLevel reading /\
            OxygenTank.currentPressure (TankRow.entity T) =
              TankReading.currentPressure reading /\
            OxygenTank.fillPercentage (TankRow.entity T) =
              TankReading.currentLevel reading /
              OxygenTank.capacity (TankRow.entity found) * 100 /\
            OxygenTank.lastReadingAt (TankRow.entity T) =
              Some (TankReading.timestamp reading)).
  { unfold T, reading_applied. cbn [TankRow.entity].
    destruct (TankReading.temperature reading), (TankReading.humidity reading);
      cbn; repeat split; reflexivity. }
  destruct Hfields as (H1 & H2 & H3 & H4).
  repeat (split; [assumption|]).
  cbn [tankRepository alertRepository]. unfold saved. rewrite Hex.
  split; [reflexivity|]. split.
  - apply in_map_iff. exists found. split; [|exact Hin].
    change (TankRow.id T) with (TankRow.id found). rewrite String.eqb_refl. reflexivity.
  - exists (n1 ++ n2 ++ n3)%list. split; [|split].
    + rewrite A3, A2, A1, <- !app_assoc. reflexivity.
    + rewrite !length_app. lia.
    + intros a Ha. apply in_app_or in Ha as [Ha|Ha]; [exact (F1 a Ha)|].
      apply in_app_or in Ha as [Ha|Ha]; [exact (F2 a Ha)|exact (F3 a Ha)].
Qed.

Lemma reading_for_known_tank_is_saved_on_ward :
  exists tank w',
    updateTankReadings 20 (Scenario.reading_for "TK-1") Scenario.ward
      = (Normal tank, w') /\
    TankRow.id tank = "7f3a" /\
    OxygenTank.fillPercentage (TankRow.entity tank) = 15 /\
    OxygenTank.lastReadingAt (TankRow.entity tank) = Some 59000%Z /\
    In tank (tankRepository (this w')).
Proof.
  destruct (reading_for_known_tank_is_saved 20 (Scenario.reading_for "TK-1")
              Scenario.ward
              {| TankRow.id := "7f3a"; TankRow.tankNumber := "TK-1";
                 TankRow.location := "Ward 3"; TankRow.pressureUnit := OxygenTank.PSI;
                 TankRow.entity := this (Scenario.tank 100 20) |} eq_refl)
    as (tank & w' & Hrun & Hid & _ & _ & _ & Hfill & Hlast & _ & Hin & _).
  exists tank, w'. repeat split; assumption.
Defined.

(** X21. Taking the same reading twice is taking it once: the second call
    returns what the first returned and leaves the tanks table and the alerts
    table exactly as the first left them, so a repeated reading never opens a
    second alert. *)
Theorem repeated_reading_changes_nothing (th : float)
    (reading : TankReading.TankReading) (w : World Repositories) :
  fst (updateTankReadings th reading (snd (updateTankReadings th reading w))) =
    fst (updateTankReadings th reading w) /\
  this (snd (updateTankReadings th reading (snd (updateTankReadings th reading w)))) =
    this (snd (updateTankReadings th reading w)).
Proof.
  destruct (find (fun t => (TankRow.tankNumber t =? TankReading.tankNumber reading)%string)
              (tankRepository (this w))) as [found|] eqn:Hfind.
  - rewrite (updateTankReadings_found th reading w found Hfind). cbv zeta.
    set (T := reading_applied reading found).
    set (w0 := mkWorld (this w) (clock w) (S (S (reads w)))).
    destruct (checks_append th T w0 (checkLowLevelAlert th T))
      as (_ & _ & _ & n1 & A1 & _); [auto|].
    set (w1 := snd (checkLowLevelAlert th T w0)) in *.
    destruct (checks_append th T w1 (checkPressureAlert T))
      as (_ & _ & _ & n2 & A2 & _); [auto|].
    set (w2 := snd (checkPressureAlert T w1)) in *.
    destruct (checks_append th T w2 (checkTemperatureAlert T))
      as (_ & _ & _ & n3 & A3 & _); [auto|].
    set (w3 := snd (checkTemperatureAlert T w2)) in *.
    cbn [snd fst].
    set (w' := mkWorld
                 {| tankRepository := saved T (tankRepository (this w));
                    alertRepository := alertRepository (this w3) |}
                 (clock w) (reads w3)).
    pose proof (find_some _ _ Hfind) as [_ Hnumber]. apply String.eqb_eq in Hnumber.
    assert (Hfind' :
              find (fun t => (TankRow.tankNumber t =? TankReading.tankNumber reading)%string)
                (tankRepository (this w')) = Some T)
      by (apply (find_saved _ T found); [exact Hfind|reflexivity|exact Hnumber]).
    rewrite (updateTankReadings_found th reading w' T Hfind'). cbv zeta.
    assert (HT : reading_applied reading T = T) by apply reading_applied_twice.
    rewrite HT. clear HT.
    set (v0 := mkWorld (this w') (clock w') (S (S (reads w')))).
    assert (S1 : checkLowLevelAlert th T v0 = (Normal tt, v0)).
    { apply (checks_settle th T w0 v0 (n2 ++ n3)%list); [auto|].
      fold w1. cbn. rewrite A3, A2, <- app_assoc. reflexivity. }
    assert (S2 : checkPressureAlert T v0 = (Normal tt, v0)).
    { apply (checks_settle th T w1 v0 n3); [auto|]. fold w2. cbn. exact A3. }
    assert (S3 : checkTemperatureAlert T v0 = (Normal tt, v0)).
    { apply (checks_settle th T w2 v0 []); [auto|]. fold w3. cbn.
      rewrite app_nil_r. reflexivity. }
    rewrite S1. cbn [snd]. rewrite S2. cbn [snd]. rewrite S3. cbn.
    rewrite saved_twice. split; reflexivity.
  - rewrite (updateTankReadings_not_found th reading w Hfind). cbn [snd fst].
    rewrite (updateTankReadings_not_found th reading w Hfind). split; reflexivity.
Qed.

End TankService.
